(** * chatr-webservice: the chat membership routes (routes/chats.js)

    A shallow embedding of the Express router of [routes/chats.js] and of
    the collaborators it calls, followed by the properties of the
    membership life cycle.

    - [JS]      the JavaScript values and built-ins the handlers use
                ([!v], [isNaN], [parseInt], number to string);
    - [Pg]      the relational store behind [pool.query];
    - [Express] requests, responses, the event trace and the middleware
                chain driver;
    - [Chats]   the seven routes of the router, one definition per
                middleware function of the source. *)

From Stdlib Require Import List String Ascii Bool ZArith Lia.
From Stdlib Require Import Decimal DecimalString DecimalZ DecimalNat.
From Stdlib Require Hexadecimal HexadecimalString.
Import ListNotations.

Local Open Scope string_scope.
Local Open Scope list_scope.
Local Open Scope nat_scope.

(** ** JavaScript values and built-ins *)

Module JS.

(** The values that flow through the handlers: route parameters are
    strings or [undefined]; ids read from the token or from a row are
    (integer) numbers.  Strings are sequences of code units below 256. *)
Inductive JsVal : Type :=
| Undefined
| Str (s : string)
| Num (z : Z).

(** ToBoolean, as used by [!request.params.chatId]. *)
Definition truthy (v : JsVal) : bool :=
  match v with
  | Undefined => false
  | Str s => negb (s =? "")%string
  | Num z => negb (z =? 0)%Z
  end.

Definition code (c : ascii) : nat := nat_of_ascii c.

(** WhiteSpace and LineTerminator code units: TAB, LF, VT, FF, CR, SP,
    NBSP. *)
Definition isWhiteSpace (c : ascii) : bool :=
  let n := code c in
  ((9 <=? n) && (n <=? 13)) || (n =? 32) || (n =? 160).

Definition isDecimalDigit (c : ascii) : bool :=
  let n := code c in (48 <=? n) && (n <=? 57).

Definition isBinaryDigit (c : ascii) : bool :=
  let n := code c in (48 <=? n) && (n <=? 49).

Definition isOctalDigit (c : ascii) : bool :=
  let n := code c in (48 <=? n) && (n <=? 55).

Definition isHexDigit (c : ascii) : bool :=
  let n := code c in
  ((48 <=? n) && (n <=? 57)) || ((65 <=? n) && (n <=? 70))
  || ((97 <=? n) && (n <=? 102)).

Definition nonempty (s : string) : bool :=
  match s with EmptyString => false | String _ _ => true end.

(** The longest prefix of [s] whose characters satisfy [p], and the rest. *)
Fixpoint span (p : ascii -> bool) (s : string) : string * string :=
  match s with
  | EmptyString => (EmptyString, EmptyString)
  | String c s' =>
      if p c then let (a, b) := span p s' in (String c a, b)
      else (EmptyString, s)
  end.

Fixpoint all (p : ascii -> bool) (s : string) : bool :=
  match s with
  | EmptyString => true
  | String c s' => p c && all p s'
  end.

Fixpoint trimStart (s : string) : string :=
  match s with
  | EmptyString => EmptyString
  | String c s' => if isWhiteSpace c then trimStart s' else s
  end.

Fixpoint trimEnd (s : string) : string :=
  match s with
  | EmptyString => EmptyString
  | String c s' =>
      let t := trimEnd s' in
      if isWhiteSpace c && negb (nonempty t) then EmptyString
      else String c t
  end.

Definition trim (s : string) : string := trimEnd (trimStart s).

Definition isSign (c : ascii) : bool := ((c =? "+") || (c =? "-"))%char.

Definition startsWith (c : ascii) (s : string) : bool :=
  match s with
  | String c' _ => (c' =? c)%char
  | EmptyString => false
  end.

Definition stripSign (s : string) : string :=
  match s with
  | String c s' => if isSign c then s' else s
  | EmptyString => s
  end.

(** ExponentPart (optional): [e] or [E], an optional sign, digits. *)
Definition ExponentPart_opt (s : string) : bool :=
  match s with
  | EmptyString => true
  | String c s' =>
      if ((c =? "e") || (c =? "E"))%char then
        let (ds, r) := span isDecimalDigit (stripSign s') in
        nonempty ds && negb (nonempty r)
      else false
  end.

(** StrUnsignedDecimalLiteral:
    [Infinity], [digits . digits? exp?], [. digits exp?], [digits exp?]. *)
Definition StrUnsignedDecimalLiteral (s : string) : bool :=
  if (s =? "Infinity")%string then true
  else
    let (ip, r) := span isDecimalDigit s in
    match r with
    | String "." r' =>
        let (fp, r'') := span isDecimalDigit r' in
        (nonempty ip || nonempty fp) && ExponentPart_opt r''
    | _ => nonempty ip && ExponentPart_opt r
    end.

(** NonDecimalIntegerLiteral: [0b], [0o], [0x] forms, unsigned. *)
Definition NonDecimalIntegerLiteral (s : string) : bool :=
  match s with
  | String "0" (String c ds) =>
      if ((c =? "b") || (c =? "B"))%char then nonempty ds && all isBinaryDigit ds
      else if ((c =? "o") || (c =? "O"))%char then nonempty ds && all isOctalDigit ds
      else if ((c =? "x") || (c =? "X"))%char then nonempty ds && all isHexDigit ds
      else false
  | _ => false
  end.

Definition StrNumericLiteral (s : string) : bool :=
  StrUnsignedDecimalLiteral (stripSign s) || NonDecimalIntegerLiteral s.

(** StringToNumber yields NaN exactly when the trimmed string is neither
    empty (which converts to 0) nor a StrNumericLiteral. *)
Definition StringToNumber_isNaN (s : string) : bool :=
  let t := trim s in
  nonempty t && negb (StrNumericLiteral t).

(** The global [isNaN]: ToNumber of the argument is NaN. *)
Definition isNaN (v : JsVal) : bool :=
  match v with
  | Undefined => true
  | Str s => StringToNumber_isNaN s
  | Num _ => false
  end.

(** Number::toString on an integer: its decimal digits, with [-]. *)
Definition Number_toString (z : Z) : string :=
  DecimalString.NilZero.string_of_int (Z.to_int z).

Definition ToString (v : JsVal) : string :=
  match v with
  | Undefined => "undefined"
  | Str s => s
  | Num z => Number_toString z
  end.

Definition toLower (c : ascii) : ascii :=
  let n := code c in
  if (65 <=? n) && (n <=? 90) then ascii_of_nat (n + 32) else c.

Fixpoint lowercase (s : string) : string :=
  match s with
  | EmptyString => EmptyString
  | String c s' => String (toLower c) (lowercase s')
  end.

Definition isHexPrefix (s : string) : bool :=
  match s with
  | String "0" (String c _) => ((c =? "x") || (c =? "X"))%char
  | _ => false
  end.

(** [parseInt(v)] with no radix argument; [None] is NaN.  Leading white
    space and a sign are skipped, a [0x] prefix selects radix 16, and the
    longest prefix of digits is read. *)
Definition parseInt (v : JsVal) : option Z :=
  let s := trimStart (ToString v) in
  let neg := startsWith "-" s in
  let s := stripSign s in
  let mag :=
    if isHexPrefix s then
      let (ds, _) := span isHexDigit (substring 2 (length s - 2) s) in
      if nonempty ds
      then option_map Z.of_hex_uint
             (HexadecimalString.NilEmpty.uint_of_string (lowercase ds))
      else None
    else
      let (ds, _) := span isDecimalDigit s in
      if nonempty ds
      then option_map Z.of_uint (DecimalString.NilEmpty.uint_of_string ds)
      else None in
  option_map (fun m => if neg then (- m)%Z else m) mag.

End JS.

Import JS.

(** ** The relational store behind [pool.query] *)

Module Pg.

Inductive result (E A : Type) : Type :=
| Ok (a : A)
| Err (e : E).
Arguments Ok {E A} a.
Arguments Err {E A} e.

(** What a rejected query carries. *)
Inductive StoreErr : Type :=
| ConnectionFailure
| InvalidTextRepresentation (s : string)
| NumericValueOutOfRange
| UniqueViolation
| NotNullViolation.

(** Modelled from the spec: the schema and [utilities/sql_conn.js] are not
    in the sources.  The four tables of the store interface,
    Chats(ChatId, Name), Members(MemberId, Email, Username),
    ChatMembers(ChatId, MemberId) and Push_Token(MemberId, Token), with the
    generator of chat ids; rows are kept in insertion order. *)
Record Member : Type := mkMember {
  MemberId : Z;
  Email : string;
  Username : string }.

Record Store : Type := mkStore {
  Chats : list (Z * string);
  Members : list Member;
  ChatMembers : list (Z * Z);
  Push_Token : list (Z * string);
  chats_chatid_seq : Z }.

(** A row as the driver hands it over: an object keyed by column name. *)
Definition Row : Type := list (string * JsVal).

Fixpoint field (r : Row) (k : string) : JsVal :=
  match r with
  | [] => Undefined
  | (k', v) :: r' => if (k' =? k)%string then v else field r' k
  end.

Record ResultSet : Type := mkResult {
  rowCount : nat;
  rows : list Row }.

Definition result_of (rs : list Row) : ResultSet :=
  {| rowCount := List.length rs; rows := rs |}.

(** A command that returns no rows reports the number of rows it touched. *)
Definition command_result (n : nat) : ResultSet :=
  {| rowCount := n; rows := [] |}.

Definition int4_min : Z := (-2147483648)%Z.
Definition int4_max : Z := 2147483647%Z.

Definition in_int4 (z : Z) : bool :=
  ((int4_min <=? z) && (z <=? int4_max))%Z.

Definition isspace (c : ascii) : bool :=
  let n := code c in ((9 <=? n) && (n <=? 13)) || (n =? 32).

Fixpoint skip_space (s : string) : string :=
  match s with
  | EmptyString => EmptyString
  | String c s' => if isspace c then skip_space s' else s
  end.

(** Modelled from the spec: the store is not in the sources.  ChatId and
    MemberId are integer columns; a route parameter reaches the store as
    text and is read as an integer there: blanks, an optional sign, decimal
    digits, blanks, within 32 bits.  Anything else rejects the statement. *)
Definition int4in (s : string) : result StoreErr Z :=
  let t := skip_space s in
  let neg := startsWith "-" t in
  let (ds, r) := span isDecimalDigit (stripSign t) in
  match DecimalString.NilEmpty.uint_of_string ds with
  | Some d =>
      if nonempty ds && negb (nonempty (skip_space r)) then
        let z := if neg then (- Z.of_uint d)%Z else Z.of_uint d in
        if in_int4 z then Ok z else Err NumericValueOutOfRange
      else Err (InvalidTextRepresentation s)
  | None => Err (InvalidTextRepresentation s)
  end.

(** A parameter bound to an integer column; [None] is NULL.  Numbers are
    ids read from a row or from the token and are passed as they are. *)
Definition int4_param (v : JsVal) : result StoreErr (option Z) :=
  match v with
  | Undefined => Ok None
  | Num z => Ok (Some z)
  | Str s =>
      match int4in s with
      | Ok z => Ok (Some z)
      | Err e => Err e
      end
  end.

(** A parameter bound to a text column; [None] is NULL. *)
Definition text_param (v : JsVal) : option string :=
  match v with
  | Undefined => None
  | Str s => Some s
  | Num z => Some (Number_toString z)
  end.

(** [column = $n]: never true of NULL. *)
Definition int_eq (p : option Z) (x : Z) : bool :=
  match p with
  | Some z => (z =? x)%Z
  | None => false
  end.

Definition text_eq (p : option string) (x : string) : bool :=
  match p with
  | Some s => (s =? x)%string
  | None => false
  end.

(** The statements of routes/chats.js, each with its ordered parameters. *)
Inductive Query : Type :=
| InsertChat (name : JsVal)
| SelectChatRooms (memberid : JsVal)
| SelectChat (chatId : JsVal)
| DeleteChatMember (chatId memberid : JsVal)
| CountChatMembers (chatId : JsVal)
| DeleteChat (chatId : JsVal)
| SelectMemberById (memberid : JsVal)
| SelectMemberByEmail (email : JsVal)
| SelectMemberIdByEmail (email : JsVal)
| SelectChatMember (chatId memberid : JsVal)
| InsertChatMemberReturning (chatId memberid : JsVal)
| InsertChatMember (chatId memberid : JsVal)
| SelectPushTokens (memberid : JsVal)
| SelectChatMemberInfo (chatId : JsVal).

Definition is_mutation (q : Query) : bool :=
  match q with
  | InsertChat _ | DeleteChatMember _ _ | DeleteChat _
  | InsertChatMemberReturning _ _ | InsertChatMember _ _ => true
  | _ => false
  end.

Definition chat_row (c : Z * string) : Row :=
  [("chatid", Num (fst c)); ("name", Str (snd c))].

Definition chatroom_row (c : Z * string) : Row :=
  [("id", Num (fst c)); ("name", Str (snd c))].

Definition member_row (m : Member) : Row :=
  [("memberid", Num (MemberId m)); ("email", Str (Email m));
   ("username", Str (Username m))].

Definition memberid_row (m : Member) : Row :=
  [("memberid", Num (MemberId m))].

Definition memberinfo_row (m : Member) : Row :=
  [("email", Str (Email m)); ("username", Str (Username m))].

Definition chatmember_row (cm : Z * Z) : Row :=
  [("chatid", Num (fst cm)); ("memberid", Num (snd cm))].

Definition token_row (t : Z * string) : Row :=
  [("token", Str (snd t))].

Definition is_chat (c : option Z) (row : Z * string) : bool :=
  int_eq c (fst row).

Definition is_member (m : option Z) (row : Member) : bool :=
  int_eq m (MemberId row).

Definition has_email (e : option string) (row : Member) : bool :=
  text_eq e (Email row).

Definition in_chat (c : option Z) (row : Z * Z) : bool :=
  int_eq c (fst row).

Definition is_chatmember (c m : option Z) (row : Z * Z) : bool :=
  int_eq c (fst row) && int_eq m (snd row).

Definition has_token_of (m : option Z) (row : Z * string) : bool :=
  int_eq m (fst row).

Definition set_Chats (st : Store) (cs : list (Z * string)) : Store :=
  {| Chats := cs; Members := Members st; ChatMembers := ChatMembers st;
     Push_Token := Push_Token st; chats_chatid_seq := chats_chatid_seq st |}.

Definition set_ChatMembers (st : Store) (cms : list (Z * Z)) : Store :=
  {| Chats := Chats st; Members := Members st; ChatMembers := cms;
     Push_Token := Push_Token st; chats_chatid_seq := chats_chatid_seq st |}.

Definition set_seq (st : Store) (n : Z) : Store :=
  {| Chats := Chats st; Members := Members st;
     ChatMembers := ChatMembers st; Push_Token := Push_Token st;
     chats_chatid_seq := n |}.

(** [INSERT INTO Chats(Name) VALUES ($1) RETURNING ChatId]: the id is the
    next value of the generator; ids are unique and 32 bits wide, and the
    generator keeps the value it handed out also when the row is refused. *)
Definition insert_chat (name : JsVal) (st : Store)
  : result StoreErr ResultSet * Store :=
  match text_param name with
  | None => (Err NotNullViolation, st)
  | Some n =>
      let id := (chats_chatid_seq st + 1)%Z in
      if negb (in_int4 id) then (Err NumericValueOutOfRange, st)
      else if existsb (is_chat (Some id)) (Chats st)
      then (Err UniqueViolation, set_seq st id)
      else (Ok (result_of [[("chatid", Num id)]]),
            set_seq (set_Chats st (Chats st ++ [(id, n)])) id)
  end.

(** [SELECT Chats.ChatID as "id", Chats.Name AS "name" FROM Chats
     JOIN ChatMembers ON ChatMembers.ChatID = Chats.ChatID
     WHERE ChatMembers.MemberID = $1] *)
Definition select_chatrooms (m : option Z) (st : Store) : list Row :=
  flat_map
    (fun c =>
       map (fun _ => chatroom_row c)
         (filter (is_chatmember (Some (fst c)) m) (ChatMembers st)))
    (Chats st).

(** [SELECT Members.Email, Members.Username FROM ChatMembers
     INNER JOIN Members ON ChatMembers.MemberId=Members.MemberId
     WHERE ChatId=$1] *)
Definition select_chatmember_info (c : option Z) (st : Store) : list Row :=
  flat_map
    (fun cm =>
       map memberinfo_row (filter (is_member (Some (snd cm))) (Members st)))
    (filter (in_chat c) (ChatMembers st)).

Definition count_removed {A : Type} (p : A -> bool) (l : list A) : nat :=
  List.length (filter p l).

Definition insert_chatmember (returning : bool) (c m : option Z) (st : Store)
  : result StoreErr ResultSet * Store :=
  match c, m with
  | Some c, Some m =>
      (Ok (if returning then result_of [chatmember_row (c, m)]
           else command_result 1),
       set_ChatMembers st (ChatMembers st ++ [(c, m)]))
  | _, _ => (Err NotNullViolation, st)
  end.

(** Modelled from the spec: [execute(query_template, ordered_params) ->
    {rowCount, rows}].  The statement [q] run against the store: its
    outcome and the store afterwards.  A parameter that does not read as
    an integer rejects the statement before it touches a row. *)
Definition exec (q : Query) (st : Store) : result StoreErr ResultSet * Store :=
  let with1 (v : JsVal)
        (k : option Z -> result StoreErr ResultSet * Store) :=
    match int4_param v with
    | Ok p => k p
    | Err e => (Err e, st)
    end in
  let with2 (v1 v2 : JsVal)
        (k : option Z -> option Z -> result StoreErr ResultSet * Store) :=
    match int4_param v1, int4_param v2 with
    | Ok p1, Ok p2 => k p1 p2
    | Err e, _ => (Err e, st)
    | _, Err e => (Err e, st)
    end in
  match q with
  | InsertChat name => insert_chat name st
  | SelectChatRooms memberid =>
      with1 memberid (fun m => (Ok (result_of (select_chatrooms m st)), st))
  | SelectChat chatId =>
      (* SELECT * FROM CHATS WHERE ChatId=$1 *)
      with1 chatId (fun c =>
        (Ok (result_of (map chat_row (filter (is_chat c) (Chats st)))), st))
  | DeleteChatMember chatId memberid =>
      (* DELETE FROM ChatMembers WHERE ChatId=$1 AND MemberId=$2 *)
      with2 chatId memberid (fun c m =>
        (Ok (command_result (count_removed (is_chatmember c m) (ChatMembers st))),
         set_ChatMembers st
           (filter (fun r => negb (is_chatmember c m r)) (ChatMembers st))))
  | CountChatMembers chatId =>
      (* SELECT COUNT( * ) AS memberCount FROM ChatMembers WHERE ChatId=$1;
         a count is a 64-bit integer, which the driver hands over as text *)
      with1 chatId (fun c =>
        (Ok (result_of
               [[("membercount",
                  Str (Number_toString
                         (Z.of_nat (List.length
                            (filter (in_chat c) (ChatMembers st))))))]]),
         st))
  | DeleteChat chatId =>
      (* DELETE FROM Chats WHERE ChatID=$1 *)
      with1 chatId (fun c =>
        (Ok (command_result (count_removed (is_chat c) (Chats st))),
         set_Chats st (filter (fun r => negb (is_chat c r)) (Chats st))))
  | SelectMemberById memberid =>
      (* SELECT * FROM Members WHERE MemberId=$1 *)
      with1 memberid (fun m =>
        (Ok (result_of (map member_row (filter (is_member m) (Members st)))),
         st))
  | SelectMemberByEmail email =>
      (* SELECT * FROM Members WHERE Email=$1 *)
      (Ok (result_of
             (map member_row
                (filter (has_email (text_param email)) (Members st)))), st)
  | SelectMemberIdByEmail email =>
      (* SELECT MemberID FROM Members WHERE Email=$1 *)
      (Ok (result_of
             (map memberid_row
                (filter (has_email (text_param email)) (Members st)))), st)
  | SelectChatMember chatId memberid =>
      (* SELECT * FROM ChatMembers WHERE ChatId=$1 AND MemberId=$2 *)
      with2 chatId memberid (fun c m =>
        (Ok (result_of
               (map chatmember_row
                  (filter (is_chatmember c m) (ChatMembers st)))), st))
  | InsertChatMemberReturning chatId memberid =>
      (* INSERT INTO ChatMembers(ChatId, MemberId) VALUES ($1, $2)
         RETURNING * *)
      with2 chatId memberid (fun c m => insert_chatmember true c m st)
  | InsertChatMember chatId memberid =>
      (* INSERT INTO ChatMembers(ChatId, MemberId) VALUES ($1, $2) *)
      with2 chatId memberid (fun c m => insert_chatmember false c m st)
  | SelectPushTokens memberid =>
      (* SELECT token FROM Push_Token WHERE Push_token.memberid=$1 *)
      with1 memberid (fun m =>
        (Ok (result_of
               (map token_row (filter (has_token_of m) (Push_Token st)))),
         st))
  | SelectChatMemberInfo chatId =>
      with1 chatId (fun c => (Ok (result_of (select_chatmember_info c st)), st))
  end.

End Pg.

Import Pg.

(** ** Requests, responses and the middleware chain *)

Module Express.

(** What a [.catch] callback can receive: a rejected query, or the
    TypeError of reading a column of [rows[0]] when there is no row. *)
Inductive JsError : Type :=
| StoreError (e : StoreErr)
| TypeError.

(** The object literals the handlers send. *)
Inductive Body : Type :=
| Message (message : string)
| MessageError (message : string) (error : JsError)
| Success
| SuccessChatID (chatID : JsVal)
| RowCountChatRooms (rowCount : nat) (chatRooms : list Row)
| RowCountRows (rowCount : nat) (rows : list Row).

Record Response : Type := mkResponse {
  status : nat;
  body : Body }.

(** What a request does to the outside, in the order it does it. *)
Inductive Event : Type :=
| EvQuery (q : Query)
| EvSendChatAction (token : JsVal) (action : string) (chatId name : JsVal)
| EvSend (r : Response).

(** The store, the queries that are going to be rejected whatever they
    ask (one flag per query to come, none when the list runs out), and the
    events so far. *)
Record World : Type := mkWorld {
  store : Store;
  faults : list bool;
  trace : list Event }.

Definition M (A : Type) : Type := World -> A * World.

Definition ret {A : Type} (a : A) : M A := fun w => (a, w).

Definition bind {A B : Type} (m : M A) (k : A -> M B) : M B :=
  fun w => let (a, w') := m w in k a w'.

Notation "x <- m ;; k" := (bind m (fun x => k))
  (at level 61, m at next level, right associativity).
Notation "m ;; k" := (bind m (fun _ => k))
  (at level 61, right associativity).

Definition emit (e : Event) : M unit :=
  fun w => (tt, {| store := store w; faults := faults w;
                   trace := trace w ++ [e] |}).

(** [response.status(code).send(body)]; [response.send(body)] is status
    200. *)
Definition send (code : nat) (b : Body) : M unit :=
  emit (EvSend {| status := code; body := b |}).

(** Modelled from the spec: [utilities/pushy_utilities.js] is not in the
    sources.  [sendChatAction(token, action, chatId, name)] hands one
    notification to the dispatcher and returns nothing. *)
Definition sendChatAction (token : JsVal) (action : string)
    (chatId name : JsVal) : M unit :=
  emit (EvSendChatAction token action chatId name).

Definition next_fault (fl : list bool) : bool * list bool :=
  match fl with
  | [] => (false, [])
  | b :: fl' => (b, fl')
  end.

(** Modelled from the spec: [utilities/sql_conn.js] is not in the sources.
    [pool.query(text, values)] executes one statement: the promise settles
    with [{rowCount, rows}], or is rejected with the store's error, either
    because the store refuses the statement or because the query fails on
    its way (the next flag of [faults]). *)
Definition pool_query (q : Query) : M (result JsError ResultSet) :=
  fun w =>
    let (failed, fl) := next_fault (faults w) in
    let tr := trace w ++ [EvQuery q] in
    if failed then
      (Err (StoreError ConnectionFailure),
       {| store := store w; faults := fl; trace := tr |})
    else
      let (r, st) := exec q (store w) in
      (match r with
       | Ok rs => Ok rs
       | Err e => Err (StoreError e)
       end,
       {| store := st; faults := fl; trace := tr |}).

(** [promise.then(onFulfilled).catch(onRejected)]: [onRejected] also
    receives what [onFulfilled] throws. *)
Definition then_catch {A : Type} (promise : M (result JsError ResultSet))
    (onFulfilled : ResultSet -> M (result JsError A))
    (onRejected : JsError -> M A) : M A :=
  r <- promise ;;
  match r with
  | Ok result =>
      r' <- onFulfilled result ;;
      match r' with
      | Ok a => ret a
      | Err e => onRejected e
      end
  | Err e => onRejected e
  end.

(** The callback returns [a]; the callback throws [e]. *)
Definition done {A : Type} (a : A) : M (result JsError A) := ret (Ok a).

Definition throw {A : Type} (e : JsError) : M (result JsError A) :=
  ret (Err e).

(** The request object: route parameters, body, the decoded token and the
    two properties the handlers attach in flight. *)
Record Request : Type := mkRequest {
  params_chatId : JsVal;
  params_email : JsVal;
  body_name : JsVal;
  decoded_memberid : Z;
  name : JsVal;
  memberid : JsVal }.

Definition set_name (r : Request) (v : JsVal) : Request :=
  {| params_chatId := params_chatId r; params_email := params_email r;
     body_name := body_name r; decoded_memberid := decoded_memberid r;
     name := v; memberid := memberid r |}.

Definition set_memberid (r : Request) (v : JsVal) : Request :=
  {| params_chatId := params_chatId r; params_email := params_email r;
     body_name := body_name r; decoded_memberid := decoded_memberid r;
     name := name r; memberid := v |}.

Definition set_params_email (r : Request) (v : JsVal) : Request :=
  {| params_chatId := params_chatId r; params_email := v;
     body_name := body_name r; decoded_memberid := decoded_memberid r;
     name := name r; memberid := memberid r |}.

(** A middleware function either calls [next()], handing the request
    object on, or returns without calling it. *)
Inductive Control : Type :=
| Next (request : Request)
| End.

Definition Middleware : Type := Request -> M Control.

Definition next (request : Request) : M Control := ret (Next request).

(** [router.METHOD(path, f1, f2, ...)]: the functions run in order, each
    one only when the one before called [next()]. *)
Fixpoint run (chain : list Middleware) (request : Request) : M unit :=
  match chain with
  | [] => ret tt
  | f :: chain' =>
      c <- f request ;;
      match c with
      | Next request' => run chain' request'
      | End => ret tt
      end
  end.

Definition initial (st : Store) (fl : list bool) : World :=
  {| store := st; faults := fl; trace := [] |}.

(** One request served from store [st]: the world it leaves. *)
Definition serve (chain : list Middleware) (request : Request)
    (fl : list bool) (st : Store) : World :=
  snd (run chain request (initial st fl)).

Fixpoint responses (tr : list Event) : list Response :=
  match tr with
  | [] => []
  | EvSend r :: tr' => r :: responses tr'
  | _ :: tr' => responses tr'
  end.

Fixpoint queries (tr : list Event) : list Query :=
  match tr with
  | [] => []
  | EvQuery q :: tr' => q :: queries tr'
  | _ :: tr' => queries tr'
  end.

Fixpoint pushes (tr : list Event) : list Event :=
  match tr with
  | [] => []
  | EvSendChatAction t a c n :: tr' =>
      EvSendChatAction t a c n :: pushes tr'
  | _ :: tr' => pushes tr'
  end.

(** The response the client receives. *)
Definition response (w : World) : option Response :=
  hd_error (responses (trace w)).

End Express.

Import Express.

(** ** routes/chats.js *)

Module Chats.

(** Modelled from the spec: [validation.isStringProvided]
    (utilities/validationUtils.js) is not in the sources.  CreateChat
    requires a non-empty [name]. *)
Definition isStringProvided (v : JsVal) : bool :=
  match v with
  | Str s => negb (s =? "")%string
  | _ => false
  end.

(** [n > k] for [n] a number or NaN ([None]). *)
Definition Number_gt (n : option Z) (k : Z) : bool :=
  match n with
  | Some z => (k <? z)%Z
  | None => false
  end.

Fixpoint forEach {A : Type} (l : list A) (f : A -> M unit) : M unit :=
  match l with
  | [] => ret tt
  | x :: l' => f x ;; forEach l' f
  end.

(** *** [router.post("/")]: create a chat *)

Definition post_1 : Middleware := fun request =>
  if negb (isStringProvided (body_name request)) then
    send 400 (Message "Missing required information") ;;
    ret End
  else
    next request.

Definition post_2 : Middleware := fun request =>
  let values := body_name request in
  then_catch (pool_query (InsertChat values))
    (fun result =>
       match rows result with
       | [] => throw TypeError
       | row :: _ =>
           send 201 (SuccessChatID (field row "chatid")) ;;
           done End
       end)
    (fun err =>
       send 400 (MessageError "SQL Error" err) ;;
       ret End).

Definition post : list Middleware := [post_1; post_2].

(** *** [router.get("/")]: the chats of the caller *)

Definition get_all_1 : Middleware := fun request =>
  let values := Num (decoded_memberid request) in
  then_catch (pool_query (SelectChatRooms values))
    (fun result =>
       send 200 (RowCountChatRooms (rowCount result) (rows result)) ;;
       done End)
    (fun err =>
       send 400 (MessageError "SQL Error" err) ;;
       ret End).

Definition get_all : list Middleware := [get_all_1].

(** *** [router.delete("/:chatId?")]: leave a chat, delete it when empty *)

Definition delete_1 : Middleware := fun request =>
  if negb (truthy (params_chatId request)) then
    send 400 (Message "Missing required information") ;;
    ret End
  else if isNaN (params_chatId request) then
    send 400 (Message "Malformed parameter. chatId must be a number") ;;
    ret End
  else
    next request.

Definition delete_2 : Middleware := fun request =>
  let values := params_chatId request in
  then_catch (pool_query (SelectChat values))
    (fun result =>
       if rowCount result =? 0 then
         send 404 (Message "Chat ID not found") ;;
         done End
       else
         done (Next request))
    (fun error =>
       send 400 (MessageError "SQL Error" error) ;;
       ret End).

Definition delete_3 : Middleware := fun request =>
  then_catch
    (pool_query
       (DeleteChatMember (params_chatId request)
          (Num (decoded_memberid request))))
    (fun deleteChatMemberResult => done (Next request))
    (fun err =>
       send 400 (MessageError "SQL Error" err) ;;
       ret End).

Definition delete_4 : Middleware := fun request =>
  then_catch (pool_query (CountChatMembers (params_chatId request)))
    (fun checkRemainingMembersResult =>
       match rows checkRemainingMembersResult with
       | [] => throw TypeError
       | row :: _ =>
           let memberCount := parseInt (field row "membercount") in
           if Number_gt memberCount 0 then
             send 200 Success ;;
             done End
           else
             done (Next request)
       end)
    (fun err =>
       send 400 (MessageError "SQL Error" err) ;;
       ret End).

Definition delete_5 : Middleware := fun request =>
  then_catch (pool_query (DeleteChat (params_chatId request)))
    (fun deleteChatResult =>
       send 200 Success ;;
       done End)
    (fun err =>
       send 400 (MessageError "SQL Error" err) ;;
       ret End).

Definition delete : list Middleware :=
  [delete_1; delete_2; delete_3; delete_4; delete_5].

(** *** [router.put("/:chatId/")]: the caller joins a chat *)

Definition put_1 : Middleware := fun request =>
  if negb (truthy (params_chatId request)) then
    send 400 (Message "Missing required information") ;;
    ret End
  else if isNaN (params_chatId request) then
    send 400 (Message "Malformed parameter. chatId must be a number") ;;
    ret End
  else
    next request.

Definition put_2 : Middleware := fun request =>
  let values := params_chatId request in
  then_catch (pool_query (SelectChat values))
    (fun result =>
       if rowCount result =? 0 then
         send 404 (Message "Chat ID not found") ;;
         done End
       else
         done (Next request))
    (fun error =>
       send 400 (MessageError "SQL Error" error) ;;
       ret End).

Definition put_3 : Middleware := fun request =>
  let values := Num (decoded_memberid request) in
  then_catch (pool_query (SelectMemberById values))
    (fun result =>
       if rowCount result =? 0 then
         send 404 (Message "email not found") ;;
         done End
       else
         done (Next request))
    (fun error =>
       send 400 (MessageError "SQL Error" error) ;;
       ret End).

Definition put_4 : Middleware := fun request =>
  then_catch
    (pool_query
       (SelectChatMember (params_chatId request)
          (Num (decoded_memberid request))))
    (fun result =>
       if 0 <? rowCount result then
         send 400 (Message "user already joined") ;;
         done End
       else
         done (Next request))
    (fun error =>
       send 400 (MessageError "SQL Error" error) ;;
       ret End).

Definition put_5 : Middleware := fun request =>
  then_catch
    (pool_query
       (InsertChatMemberReturning (params_chatId request)
          (Num (decoded_memberid request))))
    (fun result =>
       send 200 Success ;;
       done End)
    (fun err =>
       send 400 (MessageError "SQL Error" err) ;;
       ret End).

Definition put : list Middleware := [put_1; put_2; put_3; put_4; put_5].

(** *** [router.put("/:chatId/:email")]: add a member by email *)

Definition put_email_1 : Middleware := fun request =>
  if negb (truthy (params_chatId request))
     || negb (truthy (params_email request)) then
    send 400 (Message "Missing required information") ;;
    ret End
  else if isNaN (params_chatId request) then
    send 400 (Message "Malformed parameter. chatId must be a number") ;;
    ret End
  else
    next request.

Definition put_email_2 : Middleware := fun request =>
  let values := params_chatId request in
  then_catch (pool_query (SelectChat values))
    (fun result =>
       if rowCount result =? 0 then
         send 404 (Message "Chat ID not found") ;;
         done End
       else
         match rows result with
         | [] => throw TypeError
         | row :: _ => done (Next (set_name request (field row "name")))
         end)
    (fun error =>
       send 400 (MessageError "SQL Error" error) ;;
       ret End).

Definition put_email_3 : Middleware := fun request =>
  let values := params_email request in
  then_catch (pool_query (SelectMemberByEmail values))
    (fun result =>
       if rowCount result =? 0 then
         send 404 (Message "User not found") ;;
         done End
       else
         match rows result with
         | [] => throw TypeError
         | row :: _ =>
             done (Next (set_memberid request (field row "memberid")))
         end)
    (fun error =>
       send 400 (MessageError "SQL Error" error) ;;
       ret End).

Definition put_email_4 : Middleware := fun request =>
  then_catch
    (pool_query
       (SelectChatMember (params_chatId request) (memberid request)))
    (fun result =>
       if 0 <? rowCount result then
         send 400 (Message "user already joined") ;;
         done End
       else
         done (Next request))
    (fun error =>
       send 400 (MessageError "SQL Error" error) ;;
       ret End).

Definition put_email_5 : Middleware := fun request =>
  then_catch
    (pool_query
       (InsertChatMember (params_chatId request) (memberid request)))
    (fun result => done (Next request))
    (fun err =>
       send 400 (MessageError "SQL Error" err) ;;
       ret End).

Definition put_email_6 : Middleware := fun request =>
  let values := memberid request in
  then_catch (pool_query (SelectPushTokens values))
    (fun result =>
       forEach (rows result)
         (fun entry =>
            sendChatAction (field entry "token") "newRoom"
              (params_chatId request) (name request)) ;;
       send 200 Success ;;
       done End)
    (fun err =>
       send 400 (MessageError "SQL Error on select from push token" err) ;;
       ret End).

Definition put_email : list Middleware :=
  [put_email_1; put_email_2; put_email_3; put_email_4; put_email_5;
   put_email_6].

(** *** [router.get("/:chatId")]: the members of a chat *)

Definition get_1 : Middleware := fun request =>
  if negb (truthy (params_chatId request)) then
    send 400 (Message "Missing required information") ;;
    ret End
  else if isNaN (params_chatId request) then
    send 400 (Message "Malformed parameter. chatId must be a number") ;;
    ret End
  else
    next request.

Definition get_2 : Middleware := fun request =>
  let values := params_chatId request in
  then_catch (pool_query (SelectChat values))
    (fun result =>
       if rowCount result =? 0 then
         send 404 (Message "Chat ID not found") ;;
         done End
       else
         done (Next request))
    (fun error =>
       send 400 (MessageError "SQL Error" error) ;;
       ret End).

Definition get_3 : Middleware := fun request =>
  let values := params_chatId request in
  then_catch (pool_query (SelectChatMemberInfo values))
    (fun result =>
       send 200 (RowCountRows (rowCount result) (rows result)) ;;
       done End)
    (fun err =>
       send 400 (MessageError "SQL Error" err) ;;
       ret End).

Definition get : list Middleware := [get_1; get_2; get_3].

(** *** [router.delete("/:chatId/:email")]: remove a named member *)

Definition delete_email_1 : Middleware := fun request =>
  if negb (truthy (params_chatId request))
     || negb (truthy (params_email request)) then
    send 400 (Message "Missing required information") ;;
    ret End
  else if isNaN (params_chatId request) then
    send 400 (Message "Malformed parameter. chatId must be a number") ;;
    ret End
  else
    next request.

Definition delete_email_2 : Middleware := fun request =>
  let values := params_chatId request in
  then_catch (pool_query (SelectChat values))
    (fun result =>
       if rowCount result =? 0 then
         send 404 (Message "Chat ID not found") ;;
         done End
       else
         done (Next request))
    (fun error =>
       send 400 (MessageError "SQL Error" error) ;;
       ret End).

Definition delete_email_3 : Middleware := fun request =>
  let values := params_email request in
  then_catch (pool_query (SelectMemberIdByEmail values))
    (fun result =>
       if rowCount result =? 0 then
         send 404 (Message "email not found") ;;
         done End
       else
         match rows result with
         | [] => throw TypeError
         | row :: _ =>
             done (Next (set_params_email request (field row "memberid")))
         end)
    (fun error =>
       send 400 (MessageError "SQL Error" error) ;;
       ret End).

Definition delete_email_4 : Middleware := fun request =>
  then_catch
    (pool_query
       (SelectChatMember (params_chatId request) (params_email request)))
    (fun result =>
       if 0 <? rowCount result then
         done (Next request)
       else
         send 400 (Message "user not in chat") ;;
         done End)
    (fun error =>
       send 400 (MessageError "SQL Error" error) ;;
       ret End).

Definition delete_email_5 : Middleware := fun request =>
  then_catch
    (pool_query
       (DeleteChatMember (params_chatId request) (params_email request)))
    (fun result =>
       send 200 Success ;;
       done End)
    (fun err =>
       send 400 (MessageError "SQL Error" err) ;;
       ret End).

Definition delete_email : list Middleware :=
  [delete_email_1; delete_email_2; delete_email_3; delete_email_4;
   delete_email_5].

(** The routes of the router. *)
Inductive Endpoint : Type :=
| POST_chats
| GET_chats
| DELETE_chat
| PUT_chat
| PUT_chat_email
| GET_chat
| DELETE_chat_email.

Definition handlers (e : Endpoint) : list Middleware :=
  match e with
  | POST_chats => post
  | GET_chats => get_all
  | DELETE_chat => delete
  | PUT_chat => put
  | PUT_chat_email => put_email
  | GET_chat => get
  | DELETE_chat_email => delete_email
  end.

(** The routes with a [:chatId] segment, and those with an [:email] one. *)
Definition chat_scoped (e : Endpoint) : bool :=
  match e with
  | POST_chats | GET_chats => false
  | _ => true
  end.

Definition takes_email (e : Endpoint) : bool :=
  match e with
  | PUT_chat_email | DELETE_chat_email => true
  | _ => false
  end.

(** *** The responses of the error taxonomy *)

Definition MissingParameter : Response :=
  {| status := 400; body := Message "Missing required information" |}.

Definition MalformedParameter : Response :=
  {| status := 400;
     body := Message "Malformed parameter. chatId must be a number" |}.

Definition ChatNotFound : Response :=
  {| status := 404; body := Message "Chat ID not found" |}.

Definition DuplicateMembership : Response :=
  {| status := 400; body := Message "user already joined" |}.

Definition NotInChat : Response :=
  {| status := 400; body := Message "user not in chat" |}.

Definition OK : Response := {| status := 200; body := Success |}.

(** *** Requests as the router receives them *)

Definition request_post (caller : Z) (name : JsVal) : Request :=
  {| params_chatId := Undefined; params_email := Undefined;
     body_name := name; decoded_memberid := caller;
     name := Undefined; memberid := Undefined |}.

Definition request_list (caller : Z) : Request :=
  {| params_chatId := Undefined; params_email := Undefined;
     body_name := Undefined; decoded_memberid := caller;
     name := Undefined; memberid := Undefined |}.

Definition request_chat (caller : Z) (chatId : JsVal) : Request :=
  {| params_chatId := chatId; params_email := Undefined;
     body_name := Undefined; decoded_memberid := caller;
     name := Undefined; memberid := Undefined |}.

Definition request_chat_email (caller : Z) (chatId email : JsVal) : Request :=
  {| params_chatId := chatId; params_email := email;
     body_name := Undefined; decoded_memberid := caller;
     name := Undefined; memberid := Undefined |}.

End Chats.

Import Chats.

(** ** The vocabulary of the specification, read off the store *)

Module Spec.

(** A Chat row with this id exists. *)
Definition chat_exists (c : Z) (st : Store) : Prop :=
  In c (map fst (Chats st)).

(** The name of the (first) Chat row with this id. *)
Definition chat_name (c : Z) (st : Store) : option string :=
  option_map snd (hd_error (filter (is_chat (Some c)) (Chats st))).

Definition member_exists (m : Z) (st : Store) : Prop :=
  In m (map MemberId (Members st)).

(** The member an email resolves to: the first row that carries it. *)
Definition member_by_email (e : string) (st : Store) : option Member :=
  hd_error (filter (has_email (Some e)) (Members st)).

(** The number of ChatMembership rows for the pair. *)
Definition memberships (c m : Z) (st : Store) : nat :=
  List.length (filter (is_chatmember (Some c) (Some m)) (ChatMembers st)).

(** The member ids of the ChatMembership rows of a chat. *)
Definition members_of (c : Z) (st : Store) : list Z :=
  map snd (filter (in_chat (Some c)) (ChatMembers st)).

(** The ChatMembership rows other than those of the pair. *)
Definition without (c m : Z) (rows : list (Z * Z)) : list (Z * Z) :=
  filter (fun r => negb (is_chatmember (Some c) (Some m) r)) rows.

(** The device tokens registered for a member. *)
Definition tokens_of (m : Z) (st : Store) : list string :=
  map snd (filter (has_token_of (Some m)) (Push_Token st)).

(** "A ChatMembership never references a nonexistent Chat." *)
Definition chats_referenced (st : Store) : Prop :=
  forall c m, In (c, m) (ChatMembers st) -> chat_exists c st.

(** "A ChatMembership never references a nonexistent Member." *)
Definition members_referenced (st : Store) : Prop :=
  forall c m, In (c, m) (ChatMembers st) -> member_exists m st.

(** The generator of chat ids is ahead of every id in use. *)
Definition generator_ahead (st : Store) : Prop :=
  forall c, chat_exists c st -> (c <= chats_chatid_seq st)%Z.

(** The invariants of the data model: chat ids and member ids are unique,
    membership rows reference existing chats and members, no pair is
    there twice, and the generator is ahead. *)
Definition data_model (st : Store) : Prop :=
  NoDup (map fst (Chats st))
  /\ NoDup (map MemberId (Members st))
  /\ chats_referenced st
  /\ members_referenced st
  /\ NoDup (ChatMembers st)
  /\ generator_ahead st.

(** Follows the spec's words: a chatId "parseable as a positive integer",
    decimal digits that denote a number above zero. *)
Definition positive_integer (v : JsVal) : bool :=
  match v with
  | Str s =>
      nonempty s && all isDecimalDigit s
      && match DecimalString.NilEmpty.uint_of_string s with
         | Some d => (0 <? Z.of_uint d)%Z
         | None => false
         end
  | Num z => (0 <? z)%Z
  | Undefined => false
  end.

(** No response event among these. *)
Definition silent (tr : list Event) : Prop := responses tr = [].

(** From [w] to [w'] events were added and none of them is a response. *)
Definition quiet_step (w w' : World) : Prop :=
  exists evs, trace w' = trace w ++ evs /\ silent evs.

(** From [w] to [w'] events were added, the last of them a response and
    no other one. *)
Definition answering_step (w w' : World) : Prop :=
  exists evs r, trace w' = trace w ++ evs ++ [EvSend r] /\ silent evs.

(** A middleware function that calls [next()] without having responded,
    or responds once, as the last thing it does, and does not call it. *)
Definition well_behaved (f : Middleware) : Prop :=
  forall request w,
    match f request w with
    | (Next _, w') => quiet_step w w'
    | (End, w') => answering_step w w'
    end.

Definition final (f : Middleware) : Prop :=
  forall request w, fst (f request w) = End.

(** The chat rooms a response lists, none when it is not a listing. *)
Definition chatRooms_of (r : option Response) : list Row :=
  match r with
  | Some {| body := RowCountChatRooms _ rooms |} => rooms
  | _ => []
  end.

(** The store with one more membership row. *)
Definition with_member (st : Store) (c m : Z) : Store :=
  set_ChatMembers st (ChatMembers st ++ [(c, m)]).

(** The statements of an add-by-email that gets as far as the tokens. *)
Definition add_by_email_queries (s e : string) (m : Z) : list Event :=
  [EvQuery (SelectChat (Str s));
   EvQuery (SelectMemberByEmail (Str e));
   EvQuery (SelectChatMember (Str s) (Num m));
   EvQuery (InsertChatMember (Str s) (Num m));
   EvQuery (SelectPushTokens (Num m))].

(** The notification of a new room, as add-by-email dispatches it. *)
Definition newRoom (chatId name : JsVal) (token : string) : Event :=
  EvSendChatAction (Str token) "newRoom" chatId name.

End Spec.

Import Spec.

(** ** What a run reads and writes *)

Module Outcome.


(** The routes with an [INSERT INTO Chats] or a [DELETE FROM Chats]. *)
Definition writes_Chats (e : Endpoint) : bool :=
  match e with
  | POST_chats | DELETE_chat => true
  | _ => false
  end.

(** The routes with an [INSERT INTO ChatMembers] or a
    [DELETE FROM ChatMembers]. *)
Definition writes_ChatMembers (e : Endpoint) : bool :=
  match e with
  | DELETE_chat | PUT_chat | PUT_chat_email | DELETE_chat_email => true
  | _ => false
  end.



End Outcome.

Import Outcome.

(** ** A small store to run requests against *)

Module Sample.

Definition alice : Member :=
  {| MemberId := 7; Email := "alice@uw.edu"; Username := "alice" |}.

Definition bob : Member :=
  {| MemberId := 8; Email := "bob@uw.edu"; Username := "bob" |}.

(** Chat 1 has alice and bob in it, chat 2 only alice; bob has two
    devices. *)
Definition store : Store :=
  {| Chats := [(1, "general"); (2, "notes")]%Z;
     Members := [alice; bob];
     ChatMembers := [(1, 7); (1, 8); (2, 7)]%Z;
     Push_Token := [(8%Z, "device-1"); (8%Z, "device-2")];
     chats_chatid_seq := 2 |}.

End Sample.

(** * Properties *)

(** ** The built-ins on concrete inputs *)

Example isNaN_abc : isNaN (Str "abc") = true.
Proof. reflexivity. Qed.
Example isNaN_12 : isNaN (Str "12") = false.
Proof. reflexivity. Qed.
Example isNaN_neg5 : isNaN (Str "-5") = false.
Proof. reflexivity. Qed.
Example isNaN_1_5 : isNaN (Str "1.5") = false.
Proof. reflexivity. Qed.
Example isNaN_sp : isNaN (Str " ") = false.
Proof. reflexivity. Qed.
Example isNaN_1e3 : isNaN (Str "1e3") = false.
Proof. reflexivity. Qed.
Example isNaN_0x : isNaN (Str "0x1F") = false.
Proof. reflexivity. Qed.
Example isNaN_12a : isNaN (Str "12a") = true.
Proof. reflexivity. Qed.
Example isNaN_dot : isNaN (Str ".") = true.
Proof. reflexivity. Qed.
Example isNaN_pm : isNaN (Str "+-5") = true.
Proof. reflexivity. Qed.
Example isNaN_inf : isNaN (Str "-Infinity") = false.
Proof. reflexivity. Qed.
Example isNaN_sx : isNaN (Str "-0x10") = true.
Proof. reflexivity. Qed.
Example isNaN_e : isNaN (Str "1e") = true.
Proof. reflexivity. Qed.
Example isNaN_tr : isNaN (Str " 42 ") = false.
Proof. reflexivity. Qed.
Example isNaN_in : isNaN (Str "4 2") = true.
Proof. reflexivity. Qed.
Example pI_3 : parseInt (Str "3") = Some 3%Z.
Proof. reflexivity. Qed.
Example pI_0 : parseInt (Str "0") = Some 0%Z.
Proof. reflexivity. Qed.
Example pI_x : parseInt (Str "0x1F") = Some 31%Z.
Proof. reflexivity. Qed.
Example pI_m : parseInt (Str " -12px") = Some (-12)%Z.
Proof. reflexivity. Qed.
Example pI_n : parseInt (Str "abc") = None.
Proof. reflexivity. Qed.
Example pI_u : parseInt Undefined = None.
Proof. reflexivity. Qed.
Example ts_5 : Number_toString (-50) = "-50".
Proof. reflexivity. Qed.
Example int4in_12 : int4in " 12 " = Ok 12%Z.
Proof. reflexivity. Qed.
Example int4in_neg : int4in "-5" = Ok (-5)%Z.
Proof. reflexivity. Qed.
Example int4in_frac : int4in "1.5" = Err (InvalidTextRepresentation "1.5").
Proof. reflexivity. Qed.
Example int4in_big : int4in "2147483648" = Err NumericValueOutOfRange.
Proof. reflexivity. Qed.

(** ** Decimal text: what [isNaN], [parseInt] and the store make of it *)

Section StringFacts.

(** What a decimal digit is not. *)
Lemma digit_char (c : ascii) :
  isDecimalDigit c = true ->
  isWhiteSpace c = false /\ isspace c = false /\ isSign c = false
  /\ (c =? "-")%char = false /\ (c =? "I")%char = false
  /\ (c =? "x")%char = false /\ (c =? "X")%char = false.
Proof.
  destruct c as [[] [] [] [] [] [] [] []]; vm_compute; intros H;
    try discriminate H; repeat split.
Qed.

Lemma span_all (p : ascii -> bool) (s : string) :
  all p s = true -> span p s = (s, "").
Proof.
  induction s as [|c s IH]; cbn; [reflexivity|].
  intros H. apply andb_true_iff in H as [Hc Hs].
  now rewrite Hc, (IH Hs).
Qed.

Lemma digits_of_uint (d : uint) :
  all isDecimalDigit (NilEmpty.string_of_uint d) = true.
Proof. induction d; cbn; auto. Qed.

Lemma digits_of_uint_zero (d : uint) :
  all isDecimalDigit (NilZero.string_of_uint d) = true
  /\ nonempty (NilZero.string_of_uint d) = true.
Proof.
  split.
  - destruct d; try apply (digits_of_uint (_ _)); reflexivity.
  - destruct d; reflexivity.
Qed.

Lemma uint_of_string_zero (d : uint) :
  option_map Z.of_uint
    (NilEmpty.uint_of_string (NilZero.string_of_uint d))
  = Some (Z.of_uint d).
Proof.
  destruct d; try (unfold NilZero.string_of_uint; rewrite NilEmpty.usu);
    reflexivity.
Qed.

Lemma trimEnd_digits (s : string) :
  all isDecimalDigit s = true -> trimEnd s = s.
Proof.
  induction s as [|c s IH]; cbn; [reflexivity|].
  intros H. apply andb_true_iff in H as [Hc Hs].
  destruct (digit_char c Hc) as (-> & _). cbn. now rewrite (IH Hs).
Qed.

(** A non-empty run of decimal digits is a numeric literal. *)
Lemma digits_unsigned_literal (s : string) :
  nonempty s = true -> all isDecimalDigit s = true ->
  StrUnsignedDecimalLiteral s = true.
Proof.
  intros Hn Hd. unfold StrUnsignedDecimalLiteral.
  rewrite (span_all _ _ Hd), Hn.
  destruct s as [|c s]; [discriminate|].
  cbn in Hd. apply andb_true_iff in Hd as [Hc _].
  destruct (digit_char c Hc) as (_ & _ & _ & _ & HI & _).
  cbn. rewrite HI. reflexivity.
Qed.

Lemma isNaN_digits (s : string) :
  nonempty s = true -> all isDecimalDigit s = true ->
  isNaN (Str s) = false /\ isNaN (Str (String "-" s)) = false.
Proof.
  intros Hn Hd. pose proof (digits_unsigned_literal s Hn Hd) as Hlit.
  destruct s as [|c s]; [discriminate|].
  pose proof Hd as Hd'. cbn in Hd'. apply andb_true_iff in Hd' as [Hc _].
  destruct (digit_char c Hc) as (Hw & _ & Hs & _).
  split.
  - unfold isNaN, StringToNumber_isNaN, trim.
    cbn [trimStart]. rewrite Hw, (trimEnd_digits _ Hd).
    unfold StrNumericLiteral. cbn [stripSign]. rewrite Hs, Hlit. reflexivity.
  - unfold isNaN, StringToNumber_isNaN, trim.
    change (trimStart (String "-" (String c s))) with (String "-" (String c s)).
    change (trimEnd (String "-" (String c s)))
      with (String "-" (trimEnd (String c s))).
    rewrite (trimEnd_digits _ Hd).
    unfold StrNumericLiteral.
    change (stripSign (String "-" (String c s))) with (String c s).
    rewrite Hlit. reflexivity.
Qed.

(** The decimal rendering of an integer is never NaN. *)
Lemma isNaN_Number_toString (z : Z) :
  isNaN (Str (Number_toString z)) = false.
Proof.
  unfold Number_toString.
  destruct (Z.to_int z) as [d|d]; cbn [NilZero.string_of_int];
    destruct (digits_of_uint_zero d) as [Hd Hn];
    now apply isNaN_digits.
Qed.

(** The store reads the decimal rendering of a 32-bit integer back. *)
Lemma int4in_Number_toString (z : Z) :
  in_int4 z = true -> int4in (Number_toString z) = Ok z.
Proof.
  intros Hr. pose proof (DecimalZ.of_to z) as Hz.
  unfold Number_toString. destruct (Z.to_int z) as [d|d];
    cbn [NilZero.string_of_int]; cbn [Z.of_int] in Hz;
    destruct (digits_of_uint_zero d) as [Hd Hn];
    pose proof (uint_of_string_zero d) as Hu;
    destruct (NilZero.string_of_uint d) as [|c s] eqn:E; try discriminate;
    pose proof Hd as Hd'; cbn in Hd'; apply andb_true_iff in Hd' as [Hc _];
    destruct (digit_char c Hc) as (_ & Hsp & Hs & Hm & _).
  - unfold int4in. cbn [skip_space]. rewrite Hsp.
    cbn [stripSign startsWith]. rewrite Hs, Hm, (span_all _ _ Hd).
    destruct (NilEmpty.uint_of_string (String c s)); [|discriminate].
    cbn in Hu. injection Hu as Hu. cbn [nonempty skip_space negb andb].
    rewrite Hu, Hz, Hr. reflexivity.
  - unfold int4in.
    change (skip_space (String "-" (String c s))) with (String "-" (String c s)).
    change (stripSign (String "-" (String c s))) with (String c s).
    change (startsWith "-" (String "-" (String c s))) with true.
    rewrite (span_all _ _ Hd).
    destruct (NilEmpty.uint_of_string (String c s)); [|discriminate].
    cbn in Hu. injection Hu as Hu. cbn [nonempty skip_space negb andb].
    rewrite Hu, Hz, Hr. reflexivity.
Qed.

(** [parseInt] reads the text of a count back. *)
Lemma parseInt_count (n : nat) :
  parseInt (Str (Number_toString (Z.of_nat n))) = Some (Z.of_nat n).
Proof.
  pose proof (DecimalZ.of_to (Z.of_nat n)) as Hz.
  unfold Number_toString.
  destruct (Z.to_int (Z.of_nat n)) as [d|d] eqn:E.
  - cbn [NilZero.string_of_int]. cbn [Z.of_int] in Hz.
    destruct (digits_of_uint_zero d) as [Hd Hn].
    pose proof (uint_of_string_zero d) as Hu.
    destruct (NilZero.string_of_uint d) as [|c s] eqn:E'; try discriminate.
    pose proof Hd as Hd'. cbn in Hd'. apply andb_true_iff in Hd' as [Hc Hs'].
    destruct (digit_char c Hc) as (Hw & _ & Hs & Hm & _ & Hx & HX).
    unfold parseInt. cbn [ToString trimStart]. rewrite Hw.
    cbn [stripSign startsWith]. rewrite Hs, Hm.
    assert (Hp : isHexPrefix (String c s) = false).
    { destruct s as [|c' s']; [destruct c as [[] [] [] [] [] [] [] []]; reflexivity|].
      cbn in Hs'. apply andb_true_iff in Hs' as [Hc' _].
      destruct (digit_char c' Hc') as (_ & _ & _ & _ & _ & Hx' & HX').
      unfold isHexPrefix.
      destruct c as [[] [] [] [] [] [] [] []]; try reflexivity.
      now rewrite Hx', HX'. }
    rewrite Hp, (span_all _ _ Hd). cbn [nonempty].
    rewrite Hu. cbn. now rewrite Hz.
  - exfalso. cbn [Z.of_int] in Hz. pose proof (Zle_0_nat n).
    assert (0 <= Z.of_uint d)%Z.
    { unfold Z.of_uint. apply N2Z.is_nonneg. }
    assert (Z.of_uint d = 0%Z) by lia.
    assert (n = 0) by lia. subst n. discriminate E.
Qed.


Lemma span_split (p : ascii -> bool) (s a b : string) :
  span p s = (a, b) -> s = (a ++ b)%string /\ all p a = true.
Proof.
  revert a b. induction s as [|c s IH]; cbn; intros a b H.
  - injection H as <- <-. now split.
  - destruct (p c) eqn:Hc.
    + destruct (span p s) as [a' b'] eqn:E. injection H as <- <-.
      destruct (IH a' b' eq_refl) as [-> Ha]. cbn. now rewrite Hc.
    + injection H as <- <-. now split.
Qed.

Lemma space_is_WhiteSpace (c : ascii) :
  isspace c = true -> isWhiteSpace c = true.
Proof.
  unfold isspace, isWhiteSpace. intros ->. reflexivity.
Qed.

Lemma sign_char (c : ascii) :
  isSign c = true -> isWhiteSpace c = false /\ isDecimalDigit c = false.
Proof.
  destruct c as [[] [] [] [] [] [] [] []]; vm_compute; intros H;
    try discriminate H; split; reflexivity.
Qed.

Lemma trimStart_skip_space (s : string) (c : ascii) (t : string) :
  skip_space s = String c t -> isWhiteSpace c = false ->
  trimStart s = String c t.
Proof.
  induction s as [|c' s IH]; cbn; [discriminate|].
  destruct (isspace c') eqn:E.
  - rewrite (space_is_WhiteSpace _ E). exact IH.
  - intros [= -> ->] ->. reflexivity.
Qed.

Lemma trimEnd_blank (r : string) :
  skip_space r = "" -> trimEnd r = "".
Proof.
  induction r as [|c r IH]; cbn; [reflexivity|].
  destruct (isspace c) eqn:E; [|discriminate].
  intros H. rewrite (IH H), (space_is_WhiteSpace _ E). reflexivity.
Qed.

Lemma trimEnd_digits_blank (ds r : string) :
  all isDecimalDigit ds = true -> skip_space r = "" ->
  trimEnd (ds ++ r)%string = ds.
Proof.
  intros Hd Hr. induction ds as [|c ds IH]; cbn.
  - now apply trimEnd_blank.
  - cbn in Hd. apply andb_true_iff in Hd as [Hc Hd].
    destruct (digit_char c Hc) as (-> & _). cbn. now rewrite (IH Hd).
Qed.

Lemma skip_space_blank (r : string) :
  nonempty (skip_space r) = false -> skip_space r = "".
Proof. now destruct (skip_space r). Qed.

(** What the store reads as an integer, [isNaN] takes for a number. *)
Lemma int4in_numeric (s : string) (z : Z) :
  int4in s = Ok z -> truthy (Str s) = true /\ isNaN (Str s) = false.
Proof.
  intros H. split; [now destruct s|].
  unfold int4in in H.
  destruct (span isDecimalDigit (stripSign (skip_space s))) as [ds r] eqn:E.
  destruct (NilEmpty.uint_of_string ds); [|discriminate].
  destruct (nonempty ds) eqn:Hn; [|discriminate].
  destruct (nonempty (skip_space r)) eqn:Hr; [discriminate|].
  clear H. apply skip_space_blank in Hr.
  apply span_split in E as [E Hd].
  pose proof (digits_unsigned_literal ds Hn Hd) as Hlit.
  unfold isNaN, StringToNumber_isNaN, trim.
  destruct (skip_space s) as [|c t] eqn:Et.
  { cbn in E. now destruct ds. }
  cbn [stripSign] in E. destruct (isSign c) eqn:Hs.
  - destruct (sign_char c Hs) as [Hw _]. subst t.
    rewrite (trimStart_skip_space _ _ _ Et Hw).
    cbn [trimEnd]. rewrite Hw, (trimEnd_digits_blank _ _ Hd Hr).
    cbn [andb nonempty]. unfold StrNumericLiteral. cbn [stripSign].
    rewrite Hs, Hlit. reflexivity.
  - destruct ds as [|c' ds']; [discriminate|].
    cbn in E. injection E as <- E.
    cbn in Hd. apply andb_true_iff in Hd as [Hc Hd'].
    destruct (digit_char c Hc) as (Hw & _).
    rewrite (trimStart_skip_space _ _ _ Et Hw). subst t.
    cbn [trimEnd]. rewrite Hw, (trimEnd_digits_blank _ _ Hd' Hr).
    cbn [andb nonempty]. unfold StrNumericLiteral. cbn [stripSign].
    rewrite Hs, Hlit. reflexivity.
Qed.

End StringFacts.

(** ** Running a chain *)

Arguments isNaN : simpl never.
Arguments truthy : simpl never.
Arguments int4in : simpl never.
Arguments parseInt : simpl never.
Arguments Number_toString : simpl never.
Arguments run : simpl never.

Section Running.

Lemma run_nil (request : Request) (w : World) :
  run [] request w = (tt, w).
Proof. reflexivity. Qed.

Lemma run_cons (f : Middleware) (chain : list Middleware)
    (request : Request) (w : World) :
  run (f :: chain) request w =
    let (c, w') := f request w in
    match c with
    | Next request' => run chain request' w'
    | End => (tt, w')
    end.
Proof.
  unfold run; fold run. unfold bind.
  destruct (f request w) as [[r|] w']; reflexivity.
Qed.

Lemma responses_app (tr tr' : list Event) :
  responses (tr ++ tr') = responses tr ++ responses tr'.
Proof.
  induction tr as [|[q|t a c n|r] tr IH]; cbn; rewrite ?IH; reflexivity.
Qed.

Lemma pushes_app (tr tr' : list Event) :
  pushes (tr ++ tr') = pushes tr ++ pushes tr'.
Proof.
  induction tr as [|[q|t a c n|r] tr IH]; cbn; rewrite ?IH; reflexivity.
Qed.

End Running.

(** One middleware function of a chain: unfold it and evaluate as far as
    the store and the parameters allow. *)
Ltac step f :=
  rewrite run_cons; unfold f;
  unfold then_catch, bind, pool_query, send, sendChatAction, emit, next,
    ret, done, throw;
  cbn.

(** ** Rows of the store *)

Section Rows.

Variable st : Store.

Lemma filter_nil_iff {A : Type} (p : A -> bool) (l : list A) :
  filter p l = [] <-> forall x, In x l -> p x = false.
Proof.
  split.
  - intros E x Hin. destruct (p x) eqn:Hp; [|reflexivity].
    assert (H : In x (filter p l)) by (apply filter_In; auto).
    rewrite E in H. destruct H.
  - intros H. induction l as [|x l IH]; [reflexivity|]. cbn.
    rewrite (H x (or_introl eq_refl)). apply IH.
    intros y Hy. apply H. now right.
Qed.

Lemma filter_neg_nil {A : Type} (p : A -> bool) (l : list A) :
  filter p (filter (fun x => negb (p x)) l) = [].
Proof.
  apply filter_nil_iff. intros x Hin. apply filter_In in Hin as [_ H].
  now apply negb_true_iff.
Qed.

Lemma chat_rows_exist (c : Z) :
  chat_exists c st -> filter (is_chat (Some c)) (Chats st) <> [].
Proof.
  unfold chat_exists. intros H E.
  apply in_map_iff in H as ([c' n] & <- & Hin).
  apply (proj1 (filter_nil_iff _ _)) with (x := (c', n)) in E; [|exact Hin].
  cbn in E. now rewrite Z.eqb_refl in E.
Qed.

Lemma chat_rows_none (c : Z) :
  ~ chat_exists c st -> filter (is_chat (Some c)) (Chats st) = [].
Proof.
  intros H. apply filter_nil_iff. intros [c' n] Hin. cbn.
  apply Z.eqb_neq. intros <-. apply H.
  unfold chat_exists. apply in_map_iff. now exists (c, n).
Qed.

Lemma member_rows_exist (m : Z) :
  member_exists m st -> filter (is_member (Some m)) (Members st) <> [].
Proof.
  unfold member_exists. intros H E.
  apply in_map_iff in H as (row & <- & Hin).
  apply (proj1 (filter_nil_iff _ _)) with (x := row) in E; [|exact Hin].
  cbn in E. now rewrite Z.eqb_refl in E.
Qed.

Lemma is_chatmember_iff (c m : Z) (row : Z * Z) :
  is_chatmember (Some c) (Some m) row = true <-> row = (c, m).
Proof.
  destruct row as [c' m']. unfold is_chatmember. cbn.
  rewrite andb_true_iff, !Z.eqb_eq. split.
  - now intros [-> ->].
  - now intros [= -> ->].
Qed.

Lemma memberships_zero (c m : Z) :
  memberships c m st = 0 <-> ~ In (c, m) (ChatMembers st).
Proof.
  unfold memberships. rewrite length_zero_iff_nil, filter_nil_iff. split.
  - intros H Hin. specialize (H _ Hin).
    now rewrite (proj2 (is_chatmember_iff c m (c, m)) eq_refl) in H.
  - intros H row Hin. destruct (is_chatmember _ _ row) eqn:E; [|reflexivity].
    apply is_chatmember_iff in E. now subst row.
Qed.

Lemma in_without (c m : Z) (rows : list (Z * Z)) (row : Z * Z) :
  In row (without c m rows) <-> In row rows /\ row <> (c, m).
Proof.
  unfold without. rewrite filter_In, negb_true_iff.
  split; intros [H1 H2]; split; auto.
  - intros ->. now rewrite (proj2 (is_chatmember_iff c m (c, m)) eq_refl) in H2.
  - destruct (is_chatmember _ _ row) eqn:E; [|reflexivity].
    now apply is_chatmember_iff in E.
Qed.

Lemma set_ChatMembers_same : set_ChatMembers st (ChatMembers st) = st.
Proof. now destruct st. Qed.

Lemma count_once {A : Type} (p : A -> bool) (x : A) (l : list A) :
  NoDup l -> In x l -> (forall y, p y = true <-> y = x) ->
  filter p l = [x].
Proof.
  intros Hl Hin Hp. induction Hl as [|y l Hout Hl IH]; [destruct Hin|].
  cbn. destruct (p y) eqn:E.
  - apply Hp in E. subst y. f_equal. apply filter_nil_iff.
    intros z Hz. destruct (p z) eqn:Ez; [|reflexivity].
    apply Hp in Ez. now subst z.
  - destruct Hin as [->|Hin]; [|now apply IH].
    rewrite (proj2 (Hp x) eq_refl) in E. discriminate E.
Qed.

(** In the data model a member of a chat has one membership row. *)
Lemma model_memberships (c m : Z) :
  data_model st -> In (c, m) (ChatMembers st) -> memberships c m st = 1.
Proof.
  intros (_ & _ & _ & _ & Hrows & _) Hin. unfold memberships.
  rewrite (count_once _ (c, m) _ Hrows Hin); [reflexivity|].
  intros row. apply is_chatmember_iff.
Qed.

(** In the data model a member id selects one row. *)
Lemma model_member_row (m : Member) :
  data_model st -> In m (Members st) ->
  filter (is_member (Some (MemberId m))) (Members st) = [m].
Proof.
  intros (_ & Hmids & _) Hin.
  induction (Members st) as [|row rows IH]; [destruct Hin|].
  cbn in Hmids. inversion Hmids as [|? ? Hout Hmids']; subst. cbn.
  destruct Hin as [->|Hin].
  - rewrite Z.eqb_refl. f_equal. apply filter_nil_iff. intros row Hrow.
    cbn. apply Z.eqb_neq. intros E. apply Hout. rewrite E.
    now apply in_map.
  - destruct (Z.eqb_spec (MemberId m) (MemberId row)) as [E|_].
    + destruct Hout. rewrite <- E. now apply in_map.
    + now apply IH.
Qed.

End Rows.

(** The sample store satisfies the data model. *)
Lemma sample_data_model : data_model Sample.store.
Proof.
  repeat split.
  - cbn. repeat constructor; cbn; intuition discriminate.
  - cbn. repeat constructor; cbn; intuition discriminate.
  - intros c m H. cbn in H. cbn.
    destruct H as [H|[H|[H|[]]]]; injection H as <- <-; auto.
  - intros c m H. cbn in H. cbn.
    destruct H as [H|[H|[H|[]]]]; injection H as <- <-; auto.
  - cbn. repeat constructor; cbn; intuition discriminate.
  - intros c H. cbn in H. cbn. destruct H as [<-|[<-|[]]]; lia.
Qed.

(** ** Leaving a chat: [DELETE /chats/:chatId] *)

Section SelfLeave.

Variables (st : Store) (s : string) (c caller : Z).
Hypothesis chatId_reads : int4in s = Ok c.
Hypothesis chat_there : chat_exists c st.

Local Abbreviation request := (request_chat caller (Str s)).

(** Nobody else is left in the chat. *)
Lemma nobody_left :
  (forall m, In (c, m) (ChatMembers st) -> m = caller) ->
  filter (in_chat (Some c)) (without c caller (ChatMembers st)) = [].
Proof.
  intros Hall. apply filter_nil_iff. intros [c' m'] Hrow.
  apply in_without in Hrow as [Hrow Hne].
  unfold in_chat. cbn. apply Z.eqb_neq. intros <-.
  apply Hne. f_equal. now apply Hall.
Qed.

(** The world after the last member left. *)
Lemma serve_delete_last :
  (forall m, In (c, m) (ChatMembers st) -> m = caller) ->
  serve delete request [] st =
    {| store :=
         set_Chats (set_ChatMembers st (without c caller (ChatMembers st)))
           (filter (fun r => negb (is_chat (Some c) r)) (Chats st));
       faults := [];
       trace :=
         [EvQuery (SelectChat (Str s));
          EvQuery (DeleteChatMember (Str s) (Num caller));
          EvQuery (CountChatMembers (Str s));
          EvQuery (DeleteChat (Str s));
          EvSend OK] |}.
Proof.
  intros Hall. destruct (int4in_numeric s c chatId_reads) as [Ht Hn].
  pose proof (chat_rows_exist st c chat_there) as Hrows.
  unfold serve, initial, delete.
  step delete_1. rewrite Ht, Hn. cbn.
  step delete_2. rewrite chatId_reads. cbn. rewrite length_map.
  destruct (filter (is_chat (Some c)) (Chats st)) as [|row rows] eqn:E;
    [congruence|]. cbn.
  step delete_3. rewrite chatId_reads. cbn.
  step delete_4. rewrite chatId_reads. cbn.
  fold (without c caller (ChatMembers st)).
  rewrite (nobody_left Hall), parseInt_count. cbn.
  step delete_5. rewrite chatId_reads. cbn.
  reflexivity.
Qed.

(** The world after a member left and others stayed. *)
Lemma serve_delete_others (m : Z) :
  In (c, m) (ChatMembers st) -> m <> caller ->
  serve delete request [] st =
    {| store := set_ChatMembers st (without c caller (ChatMembers st));
       faults := [];
       trace :=
         [EvQuery (SelectChat (Str s));
          EvQuery (DeleteChatMember (Str s) (Num caller));
          EvQuery (CountChatMembers (Str s));
          EvSend OK] |}.
Proof.
  intros Hin Hm. destruct (int4in_numeric s c chatId_reads) as [Ht Hn].
  pose proof (chat_rows_exist st c chat_there) as Hrows.
  assert (Hstay : In (c, m)
            (filter (in_chat (Some c)) (without c caller (ChatMembers st)))).
  { apply filter_In. split.
    - apply in_without. split; [exact Hin|congruence].
    - unfold in_chat. cbn. apply Z.eqb_refl. }
  unfold serve, initial, delete.
  step delete_1. rewrite Ht, Hn. cbn.
  step delete_2. rewrite chatId_reads. cbn. rewrite length_map.
  destruct (filter (is_chat (Some c)) (Chats st)) as [|row rows] eqn:E;
    [congruence|]. cbn.
  step delete_3. rewrite chatId_reads. cbn.
  step delete_4. rewrite chatId_reads. cbn.
  fold (without c caller (ChatMembers st)).
  rewrite parseInt_count.
  destruct (filter (in_chat (Some c)) (without c caller (ChatMembers st)))
    as [|row' rows']; [destruct Hstay|].
  cbn. reflexivity.
Qed.

(** Removing the rows of a pair that has none leaves the table as it is. *)
Lemma without_stranger :
  ~ In (c, caller) (ChatMembers st) ->
  without c caller (ChatMembers st) = ChatMembers st.
Proof.
  intros Hout. unfold without.
  induction (ChatMembers st) as [|row rows IH]; [reflexivity|]. cbn.
  destruct (is_chatmember (Some c) (Some caller) row) eqn:E.
  - apply is_chatmember_iff in E. subst row. destruct Hout. now left.
  - cbn. f_equal. apply IH. intros H. apply Hout. now right.
Qed.

(** The third function of the chain when the caller is not in the chat. *)
Lemma delete_3_stranger (tr : list Event) :
  ~ In (c, caller) (ChatMembers st) ->
  delete_3 request {| store := st; faults := []; trace := tr |} =
    (Next request,
     {| store := st; faults := [];
        trace := tr ++ [EvQuery (DeleteChatMember (Str s) (Num caller))] |}).
Proof.
  intros Hout. unfold delete_3.
  unfold then_catch, bind, pool_query, done, ret. cbn.
  rewrite chatId_reads. cbn.
  fold (without c caller (ChatMembers st)).
  now rewrite (without_stranger Hout), (set_ChatMembers_same st).
Qed.

(** The queries of the request of a caller who is not in the chat. *)
Lemma serve_delete_stranger :
  ~ In (c, caller) (ChatMembers st) ->
  exists rest,
    queries (trace (serve delete request [] st)) =
      [SelectChat (Str s); DeleteChatMember (Str s) (Num caller);
       CountChatMembers (Str s)] ++ rest.
Proof.
  intros Hout. destruct (int4in_numeric s c chatId_reads) as [Ht Hn].
  pose proof (chat_rows_exist st c chat_there) as Hrows.
  unfold serve, initial, delete.
  step delete_1. rewrite Ht, Hn. cbn.
  step delete_2. rewrite chatId_reads. cbn. rewrite length_map.
  destruct (filter (is_chat (Some c)) (Chats st)) as [|row rows] eqn:E;
    [congruence|]. cbn.
  rewrite run_cons, (delete_3_stranger _ Hout).
  step delete_4. rewrite chatId_reads. cbn. rewrite parseInt_count.
  destruct (Number_gt _ 0); cbn.
  - now exists [].
  - step delete_5. rewrite chatId_reads. cbn. now exists [DeleteChat (Str s)].
Qed.

End SelfLeave.

(** The world after asking for the members of a chat that is not there. *)
Lemma serve_get_missing (st : Store) (s : string) (c caller : Z) :
  int4in s = Ok c -> ~ chat_exists c st ->
  serve get (request_chat caller (Str s)) [] st =
    {| store := st; faults := [];
       trace := [EvQuery (SelectChat (Str s)); EvSend ChatNotFound] |}.
Proof.
  intros Hs Hc. destruct (int4in_numeric s c Hs) as [Ht Hn].
  unfold serve, initial, get.
  step get_1. rewrite Ht, Hn. cbn.
  step get_2. rewrite Hs. cbn. rewrite (chat_rows_none st c Hc). cbn.
  reflexivity.
Qed.

(** C1: when the only member of a chat leaves it, the membership row and
    the Chat row are both gone afterwards, and asking for the members of
    that chat then answers ChatNotFound (404). *)
Theorem last_member_leaves (st : Store) (s : string) (c caller : Z) :
  int4in s = Ok c ->
  chat_exists c st ->
  In (c, caller) (ChatMembers st) ->
  (forall m, In (c, m) (ChatMembers st) -> m = caller) ->
  let w := serve delete (request_chat caller (Str s)) [] st in
  response w = Some OK
  /\ ChatMembers (store w) = without c caller (ChatMembers st)
  /\ ~ In (c, caller) (ChatMembers (store w))
  /\ members_of c (store w) = []
  /\ ~ chat_exists c (store w)
  /\ response (serve get (request_chat caller (Str s)) [] (store w))
     = Some ChatNotFound.
Proof.
  intros Hs Hc Hin Hall w.
  assert (Hgone : ~ chat_exists c (store w)).
  { subst w. rewrite (serve_delete_last st s c caller Hs Hc Hall). cbn.
    unfold chat_exists. cbn. intros H.
    apply in_map_iff in H as ([c' n] & Hc' & H). cbn in Hc'. subst c'.
    apply filter_In in H as [_ H]. cbn in H. now rewrite Z.eqb_refl in H. }
  split; [|split; [|split; [|split; [|split]]]].
  - subst w. now rewrite (serve_delete_last st s c caller Hs Hc Hall).
  - subst w. now rewrite (serve_delete_last st s c caller Hs Hc Hall).
  - subst w. rewrite (serve_delete_last st s c caller Hs Hc Hall). cbn.
    intros H. now apply in_without in H as [_ H].
  - subst w. rewrite (serve_delete_last st s c caller Hs Hc Hall). cbn.
    unfold members_of. cbn. now rewrite (nobody_left st c caller Hall).
  - exact Hgone.
  - now rewrite (serve_get_missing _ s c caller Hs Hgone).
Qed.

Lemma last_member_leaves_witness :
  let w := serve delete (request_chat 7 (Str "2")) [] Sample.store in
  response w = Some OK
  /\ ChatMembers (store w) = without 2 7 (ChatMembers Sample.store)
  /\ ~ In (2, 7)%Z (ChatMembers (store w))
  /\ members_of 2 (store w) = []
  /\ ~ chat_exists 2 (store w)
  /\ response (serve get (request_chat 7 (Str "2")) [] (store w))
     = Some ChatNotFound.
Proof.
  apply (last_member_leaves Sample.store "2" 2 7).
  - reflexivity.
  - cbn. auto.
  - cbn. auto.
  - intros m [H|[H|[H|[]]]]; congruence.
Defined.

(** C2: a chat that still has a membership row once the caller's is
    removed keeps its Chat row; only the caller's membership row goes,
    every other row of every table stays, and the response is the
    success one. *)
Theorem leave_keeps_inhabited_chat (st : Store) (s : string) (c caller m : Z) :
  int4in s = Ok c ->
  chat_exists c st ->
  In (c, m) (ChatMembers st) -> m <> caller ->
  let w := serve delete (request_chat caller (Str s)) [] st in
  response w = Some OK
  /\ Chats (store w) = Chats st
  /\ ChatMembers (store w) = without c caller (ChatMembers st)
  /\ ~ In (c, caller) (ChatMembers (store w))
  /\ (forall row, row <> (c, caller) ->
        (In row (ChatMembers (store w)) <-> In row (ChatMembers st)))
  /\ Members (store w) = Members st
  /\ Push_Token (store w) = Push_Token st
  /\ ~ In (DeleteChat (Str s)) (queries (trace w)).
Proof.
  intros Hs Hc Hin Hm w. subst w.
  rewrite (serve_delete_others st s c caller Hs Hc m Hin Hm). cbn.
  split; [reflexivity|]. split; [reflexivity|]. split; [reflexivity|].
  split; [|split; [|split; [reflexivity|split; [reflexivity|]]]].
  - intros H. now apply in_without in H as [_ H].
  - intros row Hrow. rewrite in_without. tauto.
  - intros [H|[H|[H|[]]]]; discriminate.
Qed.

Lemma leave_keeps_inhabited_chat_witness :
  let w := serve delete (request_chat 7 (Str "1")) [] Sample.store in
  response w = Some OK
  /\ Chats (store w) = Chats Sample.store
  /\ ChatMembers (store w) = without 1 7 (ChatMembers Sample.store)
  /\ ~ In (1, 7)%Z (ChatMembers (store w))
  /\ (forall row, row <> (1, 7)%Z ->
        (In row (ChatMembers (store w))
         <-> In row (ChatMembers Sample.store)))
  /\ Members (store w) = Members Sample.store
  /\ Push_Token (store w) = Push_Token Sample.store
  /\ ~ In (DeleteChat (Str "1")) (queries (trace w)).
Proof.
  apply (leave_keeps_inhabited_chat Sample.store "1" 1 7 8).
  - reflexivity.
  - cbn. auto.
  - cbn. auto.
  - discriminate.
Defined.

(** C7: in DeleteChat, removing the membership row of a caller who has
    none in an existing chat affects no row and raises no error, and the
    chain goes on to count the remaining members. *)
Theorem leave_without_membership (st : Store) (s : string) (c caller : Z)
    (tr : list Event) :
  int4in s = Ok c ->
  chat_exists c st ->
  ~ In (c, caller) (ChatMembers st) ->
  let request := request_chat caller (Str s) in
  exec (DeleteChatMember (Str s) (Num caller)) st
    = (Ok (command_result 0), st)
  /\ delete_3 request {| store := st; faults := []; trace := tr |}
     = (Next request,
        {| store := st; faults := [];
           trace := tr ++ [EvQuery (DeleteChatMember (Str s) (Num caller))] |})
  /\ exists rest,
       queries (trace (serve delete request [] st)) =
         [SelectChat (Str s); DeleteChatMember (Str s) (Num caller);
          CountChatMembers (Str s)] ++ rest.
Proof.
  intros Hs Hc Hout request. split; [|split].
  - cbn. rewrite Hs. cbn. fold (without c caller (ChatMembers st)).
    rewrite (without_stranger st c caller Hout), (set_ChatMembers_same st).
    apply (proj2 (memberships_zero st c caller)) in Hout.
    unfold memberships in Hout. unfold count_removed. now rewrite Hout.
  - exact (delete_3_stranger st s c caller Hs tr Hout).
  - exact (serve_delete_stranger st s c caller Hs Hc Hout).
Qed.

Lemma leave_without_membership_witness :
  let request := request_chat 8 (Str "2") in
  exec (DeleteChatMember (Str "2") (Num 8)) Sample.store
    = (Ok (command_result 0), Sample.store)
  /\ delete_3 request {| store := Sample.store; faults := []; trace := [] |}
     = (Next request,
        {| store := Sample.store; faults := [];
           trace := [] ++ [EvQuery (DeleteChatMember (Str "2") (Num 8))] |})
  /\ exists rest,
       queries (trace (serve delete request [] Sample.store)) =
         [SelectChat (Str "2"); DeleteChatMember (Str "2") (Num 8);
          CountChatMembers (Str "2")] ++ rest.
Proof.
  apply (leave_without_membership Sample.store "2" 2 8 []).
  - reflexivity.
  - cbn. auto.
  - intros [H|[H|[H|[]]]]; discriminate.
Defined.

(** ** Joining a chat: [PUT /chats/:chatId] *)

Section SelfJoin.

Variables (st : Store) (s : string) (c caller : Z).
Hypothesis chatId_reads : int4in s = Ok c.
Hypothesis chat_there : chat_exists c st.
Hypothesis caller_there : member_exists caller st.

Local Abbreviation request := (request_chat caller (Str s)).

(** The world after a member joined. *)
Lemma serve_put_join :
  memberships c caller st = 0 ->
  serve put request [] st =
    {| store := set_ChatMembers st (ChatMembers st ++ [(c, caller)]);
       faults := [];
       trace :=
         [EvQuery (SelectChat (Str s));
          EvQuery (SelectMemberById (Num caller));
          EvQuery (SelectChatMember (Str s) (Num caller));
          EvQuery (InsertChatMemberReturning (Str s) (Num caller));
          EvSend OK] |}.
Proof.
  intros Hnew. destruct (int4in_numeric s c chatId_reads) as [Ht Hn].
  pose proof (chat_rows_exist st c chat_there) as Hrows.
  pose proof (member_rows_exist st caller caller_there) as Hmember.
  unfold memberships in Hnew. apply length_zero_iff_nil in Hnew.
  unfold serve, initial, put.
  step put_1. rewrite Ht, Hn. cbn.
  step put_2. rewrite chatId_reads. cbn. rewrite length_map.
  destruct (filter (is_chat (Some c)) (Chats st)) as [|row rows] eqn:E;
    [congruence|]. cbn.
  step put_3. rewrite length_map.
  destruct (filter (is_member (Some caller)) (Members st)) as [|mrow mrows];
    [congruence|]. cbn.
  step put_4. rewrite chatId_reads. cbn. rewrite Hnew. cbn.
  step put_5. rewrite chatId_reads. cbn.
  reflexivity.
Qed.

(** The world after a member tried to join a chat they are in. *)
Lemma serve_put_duplicate :
  In (c, caller) (ChatMembers st) ->
  serve put request [] st =
    {| store := st;
       faults := [];
       trace :=
         [EvQuery (SelectChat (Str s));
          EvQuery (SelectMemberById (Num caller));
          EvQuery (SelectChatMember (Str s) (Num caller));
          EvSend DuplicateMembership] |}.
Proof.
  intros Hin. destruct (int4in_numeric s c chatId_reads) as [Ht Hn].
  pose proof (chat_rows_exist st c chat_there) as Hrows.
  pose proof (member_rows_exist st caller caller_there) as Hmember.
  assert (Hrow : In (c, caller)
            (filter (is_chatmember (Some c) (Some caller)) (ChatMembers st))).
  { apply filter_In. split; [exact Hin|]. now apply is_chatmember_iff. }
  unfold serve, initial, put.
  step put_1. rewrite Ht, Hn. cbn.
  step put_2. rewrite chatId_reads. cbn. rewrite length_map.
  destruct (filter (is_chat (Some c)) (Chats st)) as [|row rows] eqn:E;
    [congruence|]. cbn.
  step put_3. rewrite length_map.
  destruct (filter (is_member (Some caller)) (Members st)) as [|mrow mrows];
    [congruence|]. cbn.
  step put_4. rewrite chatId_reads. cbn.
  destruct (filter (is_chatmember (Some c) (Some caller)) (ChatMembers st))
    as [|row' rows']; [destruct Hrow|]. cbn.
  reflexivity.
Qed.

(** A member who joined has exactly one membership row. *)
Lemma memberships_after_join :
  memberships c caller st = 0 ->
  memberships c caller
    (set_ChatMembers st (ChatMembers st ++ [(c, caller)])) = 1.
Proof.
  unfold memberships. cbn. intros H. rewrite filter_app, length_app, H.
  unfold is_chatmember, int_eq. cbn. now rewrite !Z.eqb_refl.
Qed.

End SelfJoin.

(** C3: when a member is already in an existing chat, a further self-join
    for the same pair answers DuplicateMembership (400, "user already
    joined") and the store still holds exactly one membership row for the
    pair. *)
Theorem second_join_is_refused (st : Store) (s : string) (c caller : Z) :
  data_model st ->
  int4in s = Ok c ->
  In (c, caller) (ChatMembers st) ->
  let w := serve put (request_chat caller (Str s)) [] st in
  response w = Some DuplicateMembership
  /\ DuplicateMembership
     = {| status := 400; body := Message "user already joined" |}
  /\ store w = st
  /\ memberships c caller (store w) = 1.
Proof.
  intros Hmodel Hs Hin w. subst w.
  pose proof (model_memberships st c caller Hmodel Hin) as Hone.
  destruct Hmodel as (_ & _ & Hchats & Hmembers & _).
  rewrite (serve_put_duplicate st s c caller Hs (Hchats _ _ Hin)
             (Hmembers _ _ Hin) Hin).
  cbn. repeat split. exact Hone.
Qed.

Lemma second_join_is_refused_witness :
  let w := serve put (request_chat 7 (Str "1")) [] Sample.store in
  response w = Some DuplicateMembership
  /\ DuplicateMembership
     = {| status := 400; body := Message "user already joined" |}
  /\ store w = Sample.store
  /\ memberships 1 7 (store w) = 1.
Proof.
  apply (second_join_is_refused Sample.store "1" 1 7).
  - exact sample_data_model.
  - reflexivity.
  - cbn. auto.
Defined.

(** Two self-joins in a row: the first adds the row, the second is
    refused and the row is there once. *)
Lemma join_twice (st : Store) (s : string) (c caller : Z) :
  int4in s = Ok c ->
  chat_exists c st ->
  member_exists caller st ->
  memberships c caller st = 0 ->
  let w1 := serve put (request_chat caller (Str s)) [] st in
  let w2 := serve put (request_chat caller (Str s)) [] (store w1) in
  response w1 = Some OK
  /\ response w2 = Some DuplicateMembership
  /\ store w2 = store w1
  /\ memberships c caller (store w2) = 1.
Proof.
  intros Hs Hc Hm Hnew w1 w2.
  assert (E1 : w1 = _) by exact (serve_put_join st s c caller Hs Hc Hm Hnew).
  pose proof (memberships_after_join st c caller Hnew) as Hone.
  pose proof (serve_put_duplicate (store w1) s c caller Hs) as E2.
  fold w2 in E2. rewrite E1 in E2. cbn in E2.
  assert (Hin : In (c, caller) (ChatMembers st ++ [(c, caller)])).
  { apply in_or_app. right. now left. }
  specialize (E2 Hc Hm Hin).
  rewrite E2. rewrite E1. cbn. auto.
Qed.

(** ** Removing a named member: [DELETE /chats/:chatId/:email] *)

Section RemoveByEmail.

Variables (st : Store) (s e : string) (c caller : Z) (m : Member).
Hypothesis chatId_reads : int4in s = Ok c.
Hypothesis email_given : e <> "".
Hypothesis chat_there : chat_exists c st.
Hypothesis email_resolves : member_by_email e st = Some m.

Local Abbreviation request := (request_chat_email caller (Str s) (Str e)).

Lemma truthy_Str : truthy (Str e) = true.
Proof.
  unfold truthy. apply negb_true_iff. now apply String.eqb_neq.
Qed.

(** The world after trying to remove someone who is not in the chat. *)
Lemma serve_delete_email_stranger :
  memberships c (MemberId m) st = 0 ->
  serve delete_email request [] st =
    {| store := st;
       faults := [];
       trace :=
         [EvQuery (SelectChat (Str s));
          EvQuery (SelectMemberIdByEmail (Str e));
          EvQuery (SelectChatMember (Str s) (Num (MemberId m)));
          EvSend NotInChat] |}.
Proof.
  intros Hout. destruct (int4in_numeric s c chatId_reads) as [Ht Hn].
  pose proof (chat_rows_exist st c chat_there) as Hrows.
  unfold memberships in Hout. apply length_zero_iff_nil in Hout.
  unfold member_by_email in email_resolves.
  unfold serve, initial, delete_email.
  step delete_email_1. rewrite Ht, truthy_Str, Hn. cbn.
  step delete_email_2. rewrite chatId_reads. cbn. rewrite length_map.
  destruct (filter (is_chat (Some c)) (Chats st)) as [|row rows] eqn:E;
    [congruence|]. cbn.
  step delete_email_3.
  destruct (filter (has_email (Some e)) (Members st)) as [|m' ms];
    [discriminate|]. cbn in email_resolves. injection email_resolves as ->.
  cbn.
  step delete_email_4. rewrite chatId_reads. cbn. rewrite Hout. cbn.
  reflexivity.
Qed.

End RemoveByEmail.

(** C6: removing by email, from an existing chat, a member who exists and
    has no membership row in it answers NotInChat (400, "user not in
    chat") and leaves the store as it was: no statement that changes a
    row is issued. *)
Theorem remove_stranger_changes_nothing (st : Store) (s e : string)
    (c caller : Z) (m : Member) :
  int4in s = Ok c ->
  e <> "" ->
  chat_exists c st ->
  member_by_email e st = Some m ->
  memberships c (MemberId m) st = 0 ->
  let w := serve delete_email (request_chat_email caller (Str s) (Str e)) [] st in
  response w = Some NotInChat
  /\ NotInChat = {| status := 400; body := Message "user not in chat" |}
  /\ store w = st
  /\ forallb (fun q => negb (is_mutation q)) (queries (trace w)) = true.
Proof.
  intros Hs He Hc Hm Hout w. subst w.
  rewrite (serve_delete_email_stranger st s e c caller m Hs He Hc Hm Hout).
  cbn. auto.
Qed.

Lemma remove_stranger_changes_nothing_witness :
  let w := serve delete_email
             (request_chat_email 7 (Str "2") (Str "bob@uw.edu")) []
             Sample.store in
  response w = Some NotInChat
  /\ NotInChat = {| status := 400; body := Message "user not in chat" |}
  /\ store w = Sample.store
  /\ forallb (fun q => negb (is_mutation q)) (queries (trace w)) = true.
Proof.
  apply (remove_stranger_changes_nothing Sample.store "2" "bob@uw.edu" 2 7
           Sample.bob).
  - reflexivity.
  - discriminate.
  - cbn. auto.
  - reflexivity.
  - reflexivity.
Defined.

(** ** Adding a member by email: [PUT /chats/:chatId/:email] *)

(** [forEach] over the token rows hands one notification per row to the
    dispatcher, in the order of the rows, and touches nothing else. *)
Lemma forEach_sendChatAction (chatId name : JsVal) (entries : list Row)
    (w : World) :
  forEach entries
    (fun entry => sendChatAction (field entry "token") "newRoom" chatId name) w
  = (tt,
     {| store := store w; faults := faults w;
        trace :=
          trace w ++
          map (fun entry =>
                 EvSendChatAction (field entry "token") "newRoom" chatId name)
            entries |}).
Proof.
  revert w. induction entries as [|entry entries IH]; intros w.
  - cbn. unfold ret. rewrite app_nil_r. now destruct w.
  - cbn [forEach]. unfold bind, sendChatAction, emit.
    rewrite IH. cbn. now rewrite <- app_assoc.
Qed.

Lemma token_rows (chatId name : JsVal) (tokens : list (Z * string)) :
  map (fun entry =>
         EvSendChatAction (field entry "token") "newRoom" chatId name)
    (map token_row tokens)
  = map (newRoom chatId name) (map snd tokens).
Proof. rewrite !map_map. reflexivity. Qed.

Lemma pushes_newRoom (chatId name : JsVal) (tokens : list string) :
  pushes (map (newRoom chatId name) tokens) = map (newRoom chatId name) tokens.
Proof. induction tokens as [|t ts IH]; cbn; now rewrite ?IH. Qed.

Lemma responses_newRoom (chatId name : JsVal) (tokens : list string) :
  responses (map (newRoom chatId name) tokens) = [].
Proof. induction tokens as [|t ts IH]; cbn; now rewrite ?IH. Qed.

Section AddByEmail.

Variables (st : Store) (s e chat : string) (c caller : Z) (m : Member).
Hypothesis chatId_reads : int4in s = Ok c.
Hypothesis email_given : e <> "".
Hypothesis chat_named : chat_name c st = Some chat.
Hypothesis email_resolves : member_by_email e st = Some m.
Hypothesis not_yet_in : memberships c (MemberId m) st = 0.

Local Abbreviation request := (request_chat_email caller (Str s) (Str e)).

Local Abbreviation joined := (with_member st c (MemberId m)).
Local Abbreviation asked := (add_by_email_queries s e (MemberId m)).

(** The world once the chain has inserted the membership row: five
    functions have run and the sixth is about to. *)
Lemma put_email_inserts (fl : list bool) :
  fl = [] \/ (exists fl', fl = false :: false :: false :: false :: fl') ->
  run put_email request (initial st fl) =
  run [put_email_6]
    (set_memberid (set_name request (Str chat)) (Num (MemberId m)))
    {| store := joined; faults := skipn 4 fl;
       trace := removelast asked |}.
Proof.
  intros Hfl.
  destruct (int4in_numeric s c chatId_reads) as [Ht Hn].
  apply length_zero_iff_nil in not_yet_in.
  unfold chat_name in chat_named. unfold member_by_email in email_resolves.
  destruct (filter (is_chat (Some c)) (Chats st)) as [|[c' n] rows] eqn:Ec;
    [discriminate|]. cbn in chat_named. injection chat_named as ->.
  destruct (filter (has_email (Some e)) (Members st)) as [|m' ms] eqn:Em;
    [discriminate|]. cbn in email_resolves. injection email_resolves as ->.
  unfold initial, put_email.
  destruct Hfl as [->|[fl' ->]];
    (step put_email_1; rewrite Ht, (truthy_Str e email_given), Hn; cbn;
     step put_email_2; rewrite chatId_reads; cbn;
     rewrite length_map, Ec; cbn;
     step put_email_3; rewrite Em; cbn;
     step put_email_4; rewrite chatId_reads; cbn; rewrite not_yet_in; cbn;
     step put_email_5; rewrite chatId_reads; cbn;
     reflexivity).
Qed.

(** The world after a member was added and notified. *)
Lemma serve_put_email :
  serve put_email request [] st =
    {| store := joined;
       faults := [];
       trace :=
         asked
         ++ map (newRoom (Str s) (Str chat)) (tokens_of (MemberId m) st)
         ++ [EvSend OK] |}.
Proof.
  unfold serve. rewrite put_email_inserts by now left.
  rewrite run_cons. unfold put_email_6 at 1.
  unfold then_catch, bind, pool_query, send, emit, done, ret. cbn.
  rewrite forEach_sendChatAction. cbn.
  rewrite token_rows. reflexivity.
Qed.

(** The world after a member was added and the lookup of the tokens
    failed. *)
Lemma serve_put_email_lookup_fails :
  serve put_email request [false; false; false; false; true] st =
    {| store := joined;
       faults := [];
       trace :=
         asked
         ++ [EvSend
               {| status := 400;
                  body := MessageError "SQL Error on select from push token"
                            (StoreError ConnectionFailure) |}] |}.
Proof.
  unfold serve. rewrite put_email_inserts by (right; now exists [true]).
  rewrite run_cons. unfold put_email_6 at 1.
  unfold then_catch, bind, pool_query, send, emit, done, ret. cbn.
  reflexivity.
Qed.

End AddByEmail.

(** C5: when add-by-email has inserted the membership row, it dispatches
    exactly one notification per PushToken row of the added member (none
    when there is no token, and the response is then still the success
    one); when the lookup of the tokens fails, the caller is told of a
    store error and the membership row that was inserted stays. *)
Theorem add_by_email_notifies (st : Store) (s e chat : string)
    (c caller : Z) (m : Member) :
  int4in s = Ok c ->
  e <> "" ->
  chat_name c st = Some chat ->
  member_by_email e st = Some m ->
  memberships c (MemberId m) st = 0 ->
  let request := request_chat_email caller (Str s) (Str e) in
  let w := serve put_email request [] st in
  let w' := serve put_email request [false; false; false; false; true] st in
  (response w = Some OK
   /\ pushes (trace w)
      = map (newRoom (Str s) (Str chat)) (tokens_of (MemberId m) st)
   /\ List.length (pushes (trace w))
      = List.length (filter (has_token_of (Some (MemberId m))) (Push_Token st))
   /\ (tokens_of (MemberId m) st = [] -> pushes (trace w) = [])
   /\ memberships c (MemberId m) (store w) = 1)
  /\ (last (queries (trace w')) (SelectChat Undefined)
      = SelectPushTokens (Num (MemberId m))
      /\ response w'
         = Some {| status := 400;
                   body := MessageError "SQL Error on select from push token"
                             (StoreError ConnectionFailure) |}
      /\ pushes (trace w') = []
      /\ In (c, MemberId m) (ChatMembers (store w'))
      /\ memberships c (MemberId m) (store w') = 1).
Proof.
  intros Hs He Hc Hm Hout request w w'.
  pose proof (memberships_after_join st c (MemberId m) Hout) as Hone.
  assert (Hpush : pushes (trace w)
            = map (newRoom (Str s) (Str chat)) (tokens_of (MemberId m) st)).
  { subst w request. rewrite (serve_put_email st s e chat c caller m); auto.
    cbn. rewrite pushes_app, pushes_newRoom. cbn. apply app_nil_r. }
  split; [split; [|split; [|split; [|split]]]|split; [|split; [|split; [|split]]]].
  - subst w request. rewrite (serve_put_email st s e chat c caller m); auto.
    unfold response. cbn. rewrite responses_app, responses_newRoom.
    reflexivity.
  - exact Hpush.
  - rewrite Hpush. unfold tokens_of. now rewrite !length_map.
  - intros Hnone. now rewrite Hpush, Hnone.
  - subst w request. rewrite (serve_put_email st s e chat c caller m); auto.
  - subst w' request.
    rewrite (serve_put_email_lookup_fails st s e chat c caller m); auto.
  - subst w' request.
    rewrite (serve_put_email_lookup_fails st s e chat c caller m); auto.
  - subst w' request.
    rewrite (serve_put_email_lookup_fails st s e chat c caller m); auto.
  - subst w' request.
    rewrite (serve_put_email_lookup_fails st s e chat c caller m); auto.
    cbn. apply in_or_app. right. now left.
  - subst w' request.
    rewrite (serve_put_email_lookup_fails st s e chat c caller m); auto.
Qed.

Lemma add_by_email_notifies_witness :
  let request := request_chat_email 7 (Str "2") (Str "bob@uw.edu") in
  let w := serve put_email request [] Sample.store in
  let w' :=
    serve put_email request [false; false; false; false; true] Sample.store in
  (response w = Some OK
   /\ pushes (trace w)
      = map (newRoom (Str "2") (Str "notes")) (tokens_of 8 Sample.store)
   /\ List.length (pushes (trace w))
      = List.length (filter (has_token_of (Some 8%Z)) (Push_Token Sample.store))
   /\ (tokens_of 8 Sample.store = [] -> pushes (trace w) = [])
   /\ memberships 2 8 (store w) = 1)
  /\ (last (queries (trace w')) (SelectChat Undefined)
      = SelectPushTokens (Num 8)
      /\ response w'
         = Some {| status := 400;
                   body := MessageError "SQL Error on select from push token"
                             (StoreError ConnectionFailure) |}
      /\ pushes (trace w') = []
      /\ In (2, 8)%Z (ChatMembers (store w'))
      /\ memberships 2 8 (store w') = 1).
Proof.
  apply (add_by_email_notifies Sample.store "2" "bob@uw.edu" "notes" 2 7
           Sample.bob).
  - reflexivity.
  - discriminate.
  - reflexivity.
  - reflexivity.
  - reflexivity.
Defined.

(** ** The check of the [chatId] parameter *)

(** The world after a request whose [chatId] is no number. *)
Lemma serve_malformed (e : Endpoint) (request : Request)
    (fl : list bool) (st : Store) :
  chat_scoped e = true ->
  truthy (params_chatId request) = true ->
  isNaN (params_chatId request) = true ->
  (takes_email e = true -> truthy (params_email request) = true) ->
  serve (handlers e) request fl st =
    {| store := st; faults := fl; trace := [EvSend MalformedParameter] |}.
Proof.
  intros Hscope Ht Hn He. unfold serve, initial.
  destruct e; try discriminate Hscope; cbn [handlers].
  - unfold delete. step delete_1. now rewrite Ht, Hn.
  - unfold put. step put_1. now rewrite Ht, Hn.
  - unfold put_email. step put_email_1. now rewrite Ht, (He eq_refl), Hn.
  - unfold get. step get_1. now rewrite Ht, Hn.
  - unfold delete_email. step delete_email_1.
    now rewrite Ht, (He eq_refl), Hn.
Qed.

(** C4, as the code has it: a [chatId] that is present and that [isNaN]
    takes for no number makes every chat-scoped route (the two by-email
    ones given a non-empty email) answer MalformedParameter, with no
    statement sent to the store.  Numeric text that is no positive
    integer is not caught here. *)
Theorem nan_chatId_is_malformed (e : Endpoint) (request : Request)
    (fl : list bool) (st : Store) :
  chat_scoped e = true ->
  truthy (params_chatId request) = true ->
  isNaN (params_chatId request) = true ->
  (takes_email e = true -> truthy (params_email request) = true) ->
  let w := serve (handlers e) request fl st in
  response w = Some MalformedParameter
  /\ trace w = [EvSend MalformedParameter]
  /\ queries (trace w) = []
  /\ store w = st.
Proof.
  intros Hscope Ht Hn He w. subst w.
  rewrite (serve_malformed e request fl st Hscope Ht Hn He).
  repeat split.
Qed.

Lemma nan_chatId_is_malformed_witness :
  let w := serve (handlers DELETE_chat_email)
             (request_chat_email 7 (Str "12a") (Str "bob@uw.edu"))
             [] Sample.store in
  response w = Some MalformedParameter
  /\ trace w = [EvSend MalformedParameter]
  /\ queries (trace w) = []
  /\ store w = Sample.store.
Proof.
  apply (nan_chatId_is_malformed DELETE_chat_email
           (request_chat_email 7 (Str "12a") (Str "bob@uw.edu"))
           [] Sample.store); reflexivity.
Defined.

(** What [isNaN] rejects is in particular no positive integer: the check
    of the routes catches a part of what the specification asks for. *)
Lemma nan_is_no_positive_integer (v : JsVal) :
  isNaN v = true -> positive_integer v = false.
Proof.
  destruct v as [|s|z]; [reflexivity| |discriminate].
  intros Hnan. unfold positive_integer.
  destruct (nonempty s) eqn:Hn; [|reflexivity].
  destruct (all isDecimalDigit s) eqn:Hd; [|reflexivity].
  destruct (isNaN_digits s Hn Hd) as [H _]. congruence.
Qed.

(** C4 as stated fails: ["-5"] is no positive integer, yet the route that
    lists the members of a chat looks the chat up in the store and answers
    ChatNotFound. *)
Lemma negative_chatId_reaches_the_store :
  ~ (forall (e : Endpoint) (caller : Z) (chatId email : JsVal)
       (fl : list bool) (st : Store),
       chat_scoped e = true ->
       positive_integer chatId = false ->
       let w := serve (handlers e) (request_chat_email caller chatId email)
                  fl st in
       response w = Some MalformedParameter /\ queries (trace w) = []).
Proof.
  intros H.
  specialize (H GET_chat 7%Z (Str "-5") Undefined [] Sample.store
                eq_refl eq_refl).
  destruct H as [H _]. vm_compute in H. discriminate H.
Qed.

Example negative_chatId_trace :
  trace (serve get (request_chat 7 (Str "-5")) [] Sample.store)
  = [EvQuery (SelectChat (Str "-5")); EvSend ChatNotFound].
Proof. reflexivity. Qed.

Example fractional_chatId_trace :
  trace (serve delete (request_chat 7 (Str "1.5")) [] Sample.store)
  = [EvQuery (SelectChat (Str "1.5"));
     EvSend {| status := 400;
               body := MessageError "SQL Error"
                         (StoreError (InvalidTextRepresentation "1.5")) |}].
Proof. reflexivity. Qed.

(** ** One response per request, and nothing after it *)

Ltac split_cases :=
  repeat (match goal with
          | |- context [next_fault ?l] => destruct (next_fault l) as [[|] ?]
          | |- context [exec ?q ?s] => destruct (exec q s) as [[?|?] ?]
          | |- context [match rows ?r with _ => _ end] => destruct (rows r)
          | |- context [if ?b then _ else _] => destruct b eqn:?
          end; cbn -[exec forEach]).

Ltac close_trace :=
  match goal with
  | |- quiet_step _ _ =>
      first [ exists []; split; [now rewrite app_nil_r|reflexivity]
            | eexists; split; [reflexivity|reflexivity] ]
  | |- answering_step _ _ =>
      first [ exists []; eexists; split; [reflexivity|reflexivity]
            | rewrite <- app_assoc; eexists; eexists;
              split; [reflexivity|reflexivity] ]
  | |- _ = End => reflexivity
  end.

(** Every branch of [f]: how it leaves the trace. *)
Ltac behave f :=
  intros request w;
  cbv delta [f then_catch bind pool_query send emit next ret done throw] beta;
  cbn -[exec forEach]; split_cases; close_trace.

Section Behaviour.




Lemma post_1_behaves : well_behaved post_1.
Proof. behave post_1. Qed.

Lemma post_2_behaves : well_behaved post_2.
Proof. behave post_2. Qed.

Lemma post_2_final : final post_2.
Proof. behave post_2. Qed.

Lemma get_all_1_behaves : well_behaved get_all_1.
Proof. behave get_all_1. Qed.

Lemma get_all_1_final : final get_all_1.
Proof. behave get_all_1. Qed.

Lemma delete_1_behaves : well_behaved delete_1.
Proof. behave delete_1. Qed.

Lemma delete_2_behaves : well_behaved delete_2.
Proof. behave delete_2. Qed.

Lemma delete_3_behaves : well_behaved delete_3.
Proof. behave delete_3. Qed.

Lemma delete_4_behaves : well_behaved delete_4.
Proof. behave delete_4. Qed.

Lemma delete_5_behaves : well_behaved delete_5.
Proof. behave delete_5. Qed.

Lemma delete_5_final : final delete_5.
Proof. behave delete_5. Qed.

Lemma put_1_behaves : well_behaved put_1.
Proof. behave put_1. Qed.

Lemma put_2_behaves : well_behaved put_2.
Proof. behave put_2. Qed.

Lemma put_3_behaves : well_behaved put_3.
Proof. behave put_3. Qed.

Lemma put_4_behaves : well_behaved put_4.
Proof. behave put_4. Qed.

Lemma put_5_behaves : well_behaved put_5.
Proof. behave put_5. Qed.

Lemma put_5_final : final put_5.
Proof. behave put_5. Qed.

Lemma put_email_1_behaves : well_behaved put_email_1.
Proof. behave put_email_1. Qed.

Lemma put_email_2_behaves : well_behaved put_email_2.
Proof. behave put_email_2. Qed.

Lemma put_email_3_behaves : well_behaved put_email_3.
Proof. behave put_email_3. Qed.

Lemma put_email_4_behaves : well_behaved put_email_4.
Proof. behave put_email_4. Qed.

Lemma put_email_5_behaves : well_behaved put_email_5.
Proof. behave put_email_5. Qed.

Lemma put_email_6_behaves : well_behaved put_email_6.
Proof.
  intros request w.
  cbv delta [put_email_6 then_catch bind pool_query send emit ret done] beta.
  cbn -[exec forEach].
  destruct (next_fault (faults w)) as [[|] fl]; cbn -[exec forEach].
  - rewrite <- app_assoc. eexists [EvQuery _], _. split; reflexivity.
  - destruct (exec _ (store w)) as [[rs|err] st']; cbn -[exec forEach].
    + rewrite forEach_sendChatAction. cbn.
      eexists (EvQuery _ :: map _ (rows rs)), _. split.
      * rewrite <- !app_assoc. reflexivity.
      * unfold silent. cbn. induction (rows rs) as [|row rs' IH]; auto.
    + rewrite <- app_assoc. eexists [EvQuery _], _. split; reflexivity.
Qed.

Lemma put_email_6_final : final put_email_6.
Proof.
  intros request w.
  cbv delta [put_email_6 then_catch bind pool_query send emit ret done] beta.
  cbn -[exec forEach].
  destruct (next_fault (faults w)) as [[|] fl]; cbn -[exec forEach];
    [reflexivity|].
  destruct (exec _ (store w)) as [[rs|err] st']; cbn -[exec forEach];
    [|reflexivity].
  now rewrite forEach_sendChatAction.
Qed.

Lemma get_1_behaves : well_behaved get_1.
Proof. behave get_1. Qed.

Lemma get_2_behaves : well_behaved get_2.
Proof. behave get_2. Qed.

Lemma get_3_behaves : well_behaved get_3.
Proof. behave get_3. Qed.

Lemma get_3_final : final get_3.
Proof. behave get_3. Qed.

Lemma delete_email_1_behaves : well_behaved delete_email_1.
Proof. behave delete_email_1. Qed.

Lemma delete_email_2_behaves : well_behaved delete_email_2.
Proof. behave delete_email_2. Qed.

Lemma delete_email_3_behaves : well_behaved delete_email_3.
Proof. behave delete_email_3. Qed.

Lemma delete_email_4_behaves : well_behaved delete_email_4.
Proof. behave delete_email_4. Qed.

Lemma delete_email_5_behaves : well_behaved delete_email_5.
Proof. behave delete_email_5. Qed.

Lemma delete_email_5_final : final delete_email_5.
Proof. behave delete_email_5. Qed.

End Behaviour.

Create HintDb behaviour.
#[export] Hint Resolve post_1_behaves post_2_behaves post_2_final
  get_all_1_behaves get_all_1_final
  delete_1_behaves delete_2_behaves delete_3_behaves delete_4_behaves
  delete_5_behaves delete_5_final
  put_1_behaves put_2_behaves put_3_behaves put_4_behaves put_5_behaves
  put_5_final
  put_email_1_behaves put_email_2_behaves put_email_3_behaves
  put_email_4_behaves put_email_5_behaves put_email_6_behaves
  put_email_6_final
  get_1_behaves get_2_behaves get_3_behaves get_3_final
  delete_email_1_behaves delete_email_2_behaves delete_email_3_behaves
  delete_email_4_behaves delete_email_5_behaves delete_email_5_final
  : behaviour.



(** ** Creating a chat and listing: [POST /chats], [GET /chats],
       [GET /chats/:chatId] *)

Section CreateAndList.

Variable st : Store.

Lemma chat_absent (c : Z) :
  ~ chat_exists c st -> existsb (is_chat (Some c)) (Chats st) = false.
Proof.
  intros H. destruct (existsb _ _) eqn:E; [|reflexivity].
  apply existsb_exists in E as ([c' n] & Hin & Hc). cbn in Hc.
  apply Z.eqb_eq in Hc. subst c'. destruct H.
  unfold chat_exists. apply in_map_iff. now exists (c, n).
Qed.

(** The id the generator hands out next is not in use. *)
Lemma next_id_is_fresh :
  generator_ahead st -> ~ chat_exists (chats_chatid_seq st + 1) st.
Proof. intros Hgen H. apply Hgen in H. lia. Qed.

(** A chat that does not exist has no membership row. *)
Lemma no_rows_of_absent_chat (c : Z) :
  chats_referenced st -> ~ chat_exists c st ->
  filter (in_chat (Some c)) (ChatMembers st) = [].
Proof.
  intros Href Hc. apply filter_nil_iff. intros [c' m] Hin.
  unfold in_chat. cbn. apply Z.eqb_neq. intros <-.
  apply Hc. exact (Href _ _ Hin).
Qed.

(** The world after a chat was created. *)
Lemma serve_post (caller : Z) (n : string) :
  n <> "" ->
  in_int4 (chats_chatid_seq st + 1) = true ->
  ~ chat_exists (chats_chatid_seq st + 1) st ->
  serve post (request_post caller (Str n)) [] st =
    {| store :=
         set_seq
           (set_Chats st (Chats st ++ [((chats_chatid_seq st + 1)%Z, n)]))
           (chats_chatid_seq st + 1);
       faults := [];
       trace :=
         [EvQuery (InsertChat (Str n));
          EvSend {| status := 201;
                    body := SuccessChatID (Num (chats_chatid_seq st + 1)) |}] |}.
Proof.
  intros Hn Hrange Hfresh. unfold serve, initial, post.
  step post_1. apply String.eqb_neq in Hn. rewrite Hn. cbn.
  step post_2. unfold insert_chat. cbn.
  rewrite Hrange, (chat_absent _ Hfresh). cbn.
  reflexivity.
Qed.

(** The world after the members of a chat were listed. *)
Lemma serve_get (caller : Z) (s : string) (c : Z) :
  int4in s = Ok c -> chat_exists c st ->
  serve get (request_chat caller (Str s)) [] st =
    {| store := st;
       faults := [];
       trace :=
         [EvQuery (SelectChat (Str s));
          EvQuery (SelectChatMemberInfo (Str s));
          EvSend
            {| status := 200;
               body :=
                 RowCountRows
                   (List.length (select_chatmember_info (Some c) st))
                   (select_chatmember_info (Some c) st) |}] |}.
Proof.
  intros Hs Hc. destruct (int4in_numeric s c Hs) as [Ht Hn].
  pose proof (chat_rows_exist st c Hc) as Hrows.
  unfold serve, initial, get.
  step get_1. rewrite Ht, Hn. cbn.
  step get_2. rewrite Hs. cbn. rewrite length_map.
  destruct (filter (is_chat (Some c)) (Chats st)) as [|row rows] eqn:E;
    [congruence|]. cbn.
  step get_3. rewrite Hs. cbn.
  reflexivity.
Qed.

(** The world after the chats of a member were listed. *)
Lemma serve_get_all (request : Request) :
  serve get_all request [] st =
    {| store := st;
       faults := [];
       trace :=
         [EvQuery (SelectChatRooms (Num (decoded_memberid request)));
          EvSend
            {| status := 200;
               body :=
                 RowCountChatRooms
                   (List.length
                      (select_chatrooms (Some (decoded_memberid request)) st))
                   (select_chatrooms (Some (decoded_memberid request)) st)
            |}] |}.
Proof.
  unfold serve, initial, get_all.
  step get_all_1. reflexivity.
Qed.

(** A chat room is listed for a member exactly when a Chat row and a
    membership row of the member for it exist. *)
Lemma in_select_chatrooms (m : Z) (row : Row) :
  In row (select_chatrooms (Some m) st) <->
  exists c n, row = chatroom_row (c, n) /\ In (c, n) (Chats st)
              /\ In (c, m) (ChatMembers st).
Proof.
  unfold select_chatrooms. rewrite in_flat_map. split.
  - intros ([c n] & Hc & Hrow). apply in_map_iff in Hrow as (cm & <- & Hcm).
    apply filter_In in Hcm as [Hcm Hp]. cbn in Hp.
    apply is_chatmember_iff in Hp. subst cm. now exists c, n.
  - intros (c & n & -> & Hc & Hcm). exists (c, n). split; [exact Hc|].
    apply in_map_iff. exists (c, m). split; [reflexivity|].
    apply filter_In. split; [exact Hcm|]. now apply is_chatmember_iff.
Qed.

End CreateAndList.

(** C9: from a store that has the caller as a member, creating the chat
    "Team" and joining it under the id that was returned makes the member
    listing of that chat exactly the caller's email and username, one row,
    and puts the chat, under that id and with the name "Team", among the
    caller's chats. *)
Theorem create_join_list_roundtrip (st : Store) (m : Member) :
  data_model st ->
  In m (Members st) ->
  in_int4 (chats_chatid_seq st + 1) = true ->
  let caller := MemberId m in
  let c := (chats_chatid_seq st + 1)%Z in
  let chatId := Str (Number_toString c) in
  let w1 := serve post (request_post caller (Str "Team")) [] st in
  let w2 := serve put (request_chat caller chatId) [] (store w1) in
  let w3 := serve get (request_chat caller chatId) [] (store w2) in
  let w4 := serve get_all (request_list caller) [] (store w2) in
  response w1 = Some {| status := 201; body := SuccessChatID (Num c) |}
  /\ response w2 = Some OK
  /\ response w3
     = Some {| status := 200;
               body := RowCountRows 1
                         [[("email", Str (Email m));
                           ("username", Str (Username m))]] |}
  /\ In [("id", Num c); ("name", Str "Team")] (chatRooms_of (response w4))
  /\ (forall row,
        In row (chatRooms_of (response w4)) -> field row "id" = Num c ->
        row = [("id", Num c); ("name", Str "Team")]).
Proof.
  intros Hmodel Hmember Hrange caller c chatId w1 w2 w3 w4.
  pose proof (model_member_row st m Hmodel Hmember) as Hm. fold caller in Hm.
  destruct Hmodel as (_ & _ & Href & _ & _ & Hgen).
  pose proof (next_id_is_fresh st Hgen) as Hfresh. fold c in Hfresh.
  pose proof (int4in_Number_toString c Hrange) as Hs.
  pose proof (no_rows_of_absent_chat st c Href Hfresh) as Hempty.
  set (st1 := set_seq (set_Chats st (Chats st ++ [(c, "Team")])) c).
  set (st2 := set_ChatMembers st1 (ChatMembers st ++ [(c, caller)])).
  assert (E1 : w1 = {| store := st1; faults := [];
                       trace := [EvQuery (InsertChat (Str "Team"));
                                 EvSend {| status := 201;
                                           body := SuccessChatID (Num c) |}] |}).
  { apply serve_post; [discriminate|exact Hrange|exact Hfresh]. }
  assert (Hc1 : chat_exists c st1).
  { unfold chat_exists, st1. cbn. rewrite map_app. apply in_or_app.
    right. now left. }
  assert (Hm1 : member_exists caller st1).
  { unfold member_exists, st1. cbn. apply in_map_iff. exists m.
    assert (H : In m (filter (is_member (Some caller)) (Members st)))
      by (rewrite Hm; now left).
    apply filter_In in H as [H Hid]. cbn in Hid. apply Z.eqb_eq in Hid.
    now split. }
  assert (Hnew : memberships c caller st1 = 0).
  { apply memberships_zero. unfold st1. cbn. intros Hin.
    apply Hfresh. exact (Href _ _ Hin). }
  assert (E2 : w2 = {| store := st2; faults := [];
                       trace :=
                         [EvQuery (SelectChat chatId);
                          EvQuery (SelectMemberById (Num caller));
                          EvQuery (SelectChatMember chatId (Num caller));
                          EvQuery (InsertChatMemberReturning chatId (Num caller));
                          EvSend OK] |}).
  { subst w2. rewrite E1. cbn [store].
    exact (serve_put_join st1 _ c caller Hs Hc1 Hm1 Hnew). }
  assert (Hc2 : chat_exists c st2) by exact Hc1.
  pose proof (serve_get st2 caller _ c Hs Hc2) as E3.
  pose proof (serve_get_all st2 (request_list caller)) as E4.
  replace st2 with (store w2) in E3 at 1 by now rewrite E2.
  replace st2 with (store w2) in E4 at 1 by now rewrite E2.
  fold chatId w3 in E3. fold w4 in E4.
  assert (Hinfo : select_chatmember_info (Some c) st2
                  = [[("email", Str (Email m)); ("username", Str (Username m))]]).
  { unfold select_chatmember_info, st2, st1. cbn.
    rewrite filter_app, Hempty. cbn. unfold in_chat, int_eq. cbn.
    rewrite Z.eqb_refl. cbn. rewrite Hm. reflexivity. }
  assert (Hrooms : chatRooms_of (response w4)
                   = select_chatrooms (Some caller) st2)
    by (rewrite E4; reflexivity).
  split; [|split; [|split; [|split]]].
  - now rewrite E1.
  - now rewrite E2.
  - rewrite E3, Hinfo. reflexivity.
  - rewrite Hrooms.
    apply in_select_chatrooms. exists c, "Team". split; [reflexivity|].
    unfold st2, st1. cbn. split; apply in_or_app; right; now left.
  - intros row Hrow Hid. rewrite Hrooms in Hrow.
    apply in_select_chatrooms in Hrow as (c' & n & -> & Hchat & _).
    cbn in Hid. injection Hid as ->.
    unfold st2, st1 in Hchat. cbn in Hchat.
    apply in_app_or in Hchat as [Hchat|[Hchat|[]]].
    + destruct Hfresh. unfold chat_exists. apply in_map_iff.
      now exists (c, n).
    + now injection Hchat as <-.
Qed.

Lemma create_join_list_roundtrip_witness :
  let c := 3%Z in
  let chatId := Str (Number_toString c) in
  let w1 := serve post (request_post 8 (Str "Team")) [] Sample.store in
  let w2 := serve put (request_chat 8 chatId) [] (store w1) in
  let w3 := serve get (request_chat 8 chatId) [] (store w2) in
  let w4 := serve get_all (request_list 8) [] (store w2) in
  response w1 = Some {| status := 201; body := SuccessChatID (Num c) |}
  /\ response w2 = Some OK
  /\ response w3
     = Some {| status := 200;
               body := RowCountRows 1
                         [[("email", Str "bob@uw.edu");
                           ("username", Str "bob")]] |}
  /\ In [("id", Num c); ("name", Str "Team")] (chatRooms_of (response w4))
  /\ (forall row,
        In row (chatRooms_of (response w4)) -> field row "id" = Num c ->
        row = [("id", Num c); ("name", Str "Team")]).
Proof.
  apply (create_join_list_roundtrip Sample.store Sample.bob).
  - exact sample_data_model.
  - cbn. auto.
  - reflexivity.
Defined.

Section Create.

Variables (st : Store) (caller : Z).

Lemma chat_present (c : Z) :
  existsb (is_chat (Some c)) (Chats st) = false -> ~ chat_exists c st.
Proof.
  intros E H. apply in_map_iff in H as ([c' n] & Hc & Hin). cbn in Hc.
  subst c'. assert (H : existsb (is_chat (Some c)) (Chats st) = true).
  { apply existsb_exists. exists (c, n). split; [exact Hin|].
    cbn. apply Z.eqb_refl. }
  congruence.
Qed.

(** What a request to create a chat comes to: the chat is created under
    the next id, which was not in use, or the response is a 400. *)
Lemma serve_post_cases (nm : JsVal) (fl : list bool) :
  let c := (chats_chatid_seq st + 1)%Z in
  let w := serve post (request_post caller nm) fl st in
  (exists n,
     nm = Str n /\ n <> "" /\ ~ chat_exists c st
     /\ store w = set_seq (set_Chats st (Chats st ++ [(c, n)])) c
     /\ response w
        = Some {| status := 201; body := SuccessChatID (Num c) |})
  \/ (exists b, response w = Some {| status := 400; body := b |}).
Proof.
  intros c w. subst w. unfold serve, initial, post.
  step post_1. destruct nm as [|n|z]; cbn.
  - right; eexists; reflexivity.
  - destruct (String.eqb_spec n ""); cbn.
    + right; eexists; reflexivity.
    + step post_2. destruct fl as [|[|] fl']; cbn.
      * unfold insert_chat. cbn. fold c.
        destruct (in_int4 c) eqn:Hrange; cbn; [|right; eexists; reflexivity].
        destruct (existsb (is_chat (Some c)) (Chats st)) eqn:Hused; cbn;
          [right; eexists; reflexivity|].
        left. exists n. repeat split; auto. now apply chat_present.
      * right; eexists; reflexivity.
      * unfold insert_chat. cbn. fold c.
        destruct (in_int4 c) eqn:Hrange; cbn; [|right; eexists; reflexivity].
        destruct (existsb (is_chat (Some c)) (Chats st)) eqn:Hused; cbn;
          [right; eexists; reflexivity|].
        left. exists n. repeat split; auto. now apply chat_present.
  - right; eexists; reflexivity.
Qed.

(** The rooms a listing shows are those the store has for the member,
    or none when the query was rejected. *)
Lemma serve_get_all_rooms (request : Request) (fl : list bool) :
  let rooms := chatRooms_of (response (serve get_all request fl st)) in
  rooms = [] \/ rooms = select_chatrooms (Some (decoded_memberid request)) st.
Proof.
  unfold serve, initial, get_all.
  step get_all_1. destruct fl as [|[|] fl']; cbn; auto.
Qed.

End Create.

(** C10: a successful CreateChat inserts the Chat row and nothing else:
    the membership table is as it was, the new chat has no membership row,
    and it is in nobody's list of chats. *)
Theorem create_adds_no_member (st : Store) (caller : Z) (nm chatID : JsVal)
    (fl : list bool) :
  data_model st ->
  let w := serve post (request_post caller nm) fl st in
  response w = Some {| status := 201; body := SuccessChatID chatID |} ->
  exists c n,
    chatID = Num c /\ nm = Str n
    /\ Chats (store w) = Chats st ++ [(c, n)]
    /\ ChatMembers (store w) = ChatMembers st
    /\ Members (store w) = Members st
    /\ Push_Token (store w) = Push_Token st
    /\ members_of c (store w) = []
    /\ forall m fl' row,
         In row (chatRooms_of
                   (response (serve get_all (request_list m) fl' (store w)))) ->
         field row "id" <> Num c.
Proof.
  intros (_ & _ & Href & _) w Hok.
  destruct (serve_post_cases st caller nm fl)
    as [(n & -> & Hn & Hfresh & Hstore & Hres)|(b & Hres)];
    fold w in Hres; [fold w in Hstore|congruence].
  rewrite Hres in Hok. injection Hok as <-.
  exists (chats_chatid_seq st + 1)%Z, n. rewrite Hstore. cbn.
  repeat (split; [reflexivity|]). split.
  - unfold members_of. cbn.
    now rewrite (no_rows_of_absent_chat st _ Href Hfresh).
  - intros m fl' row Hrow Hid.
    destruct (serve_get_all_rooms
                (set_seq (set_Chats st
                            (Chats st ++ [((chats_chatid_seq st + 1)%Z, n)]))
                   (chats_chatid_seq st + 1))
                (request_list m) fl') as [E|E];
      cbn zeta in E; rewrite E in Hrow; [destruct Hrow|].
    apply in_select_chatrooms in Hrow as (c' & n' & -> & _ & Hin).
    cbn in Hid. injection Hid as ->. cbn in Hin.
    apply Hfresh. exact (Href _ _ Hin).
Qed.

Lemma create_adds_no_member_witness :
  let w := serve post (request_post 7 (Str "Team")) [] Sample.store in
  exists c n,
    Num 3 = Num c /\ Str "Team" = Str n
    /\ Chats (store w) = Chats Sample.store ++ [(c, n)]
    /\ ChatMembers (store w) = ChatMembers Sample.store
    /\ Members (store w) = Members Sample.store
    /\ Push_Token (store w) = Push_Token Sample.store
    /\ members_of c (store w) = []
    /\ forall m fl' row,
         In row (chatRooms_of
                   (response (serve get_all (request_list m) fl' (store w)))) ->
         field row "id" <> Num c.
Proof.
  apply (create_adds_no_member Sample.store 7 (Str "Team") (Num 3) []).
  - exact sample_data_model.
  - reflexivity.
Defined.

(** ** What a request can do to the store *)

Lemma int4_param_null (v : JsVal) :
  int4_param v = Ok None -> truthy v = false.
Proof.
  destruct v as [|s|z]; cbn; [reflexivity| |discriminate].
  destruct (int4in s); discriminate.
Qed.

(** A parameter that passed the presence check is not NULL. *)
Ltac null_param :=
  match goal with
  | H : int4_param ?v = Ok None, T : negb (truthy ?v) = false |- _ =>
      apply int4_param_null in H; rewrite H in T; discriminate T
  | H : int4_param ?v = Ok None, T : negb (truthy ?v) || _ = false |- _ =>
      apply int4_param_null in H; rewrite H in T; discriminate T
  end.

Ltac fork :=
  repeat (match goal with
          | H : int4_param ?v = _ |- context [int4_param ?v] => rewrite H
          | |- context [parseInt (Str (Number_toString (Z.of_nat _)))] =>
              rewrite parseInt_count
          | |- context [next_fault ?l] => destruct (next_fault l) as [[|] ?]
          | |- context [match int4_param ?v with _ => _ end] =>
              destruct (int4_param v) as [[?|]|?] eqn:?; try null_param
          | |- context [match map ?f (filter ?p ?l) with _ => _ end] =>
              destruct (filter p l) eqn:?
          | |- context [if ?b then _ else _] => destruct b eqn:?
          end; cbn);
  try (left; reflexivity); try reflexivity.

Section Outcomes.

Variables (st : Store) (request : Request) (fl : list bool).

Local Abbreviation caller := (decoded_memberid request).

Lemma chat_rows_found (p : option Z) :
  (List.length (map chat_row (filter (is_chat p) (Chats st))) =? 0) = false ->
  exists c, p = Some c /\ chat_exists c st.
Proof.
  rewrite length_map. intros H.
  destruct (filter (is_chat p) (Chats st)) as [|[c n] rows] eqn:E;
    [discriminate|].
  assert (Hin : In (c, n) (filter (is_chat p) (Chats st)))
    by (rewrite E; now left).
  apply filter_In in Hin as [Hin Hp]. destruct p as [c'|]; [|discriminate].
  cbn in Hp. apply Z.eqb_eq in Hp. subst c'. exists c. split; [reflexivity|].
  unfold chat_exists. apply in_map_iff. now exists (c, n).
Qed.

Lemma member_rows_found (p : option Z) :
  (List.length (map member_row (filter (is_member p) (Members st))) =? 0)
  = false ->
  exists m, p = Some m /\ member_exists m st.
Proof.
  rewrite length_map. intros H.
  destruct (filter (is_member p) (Members st)) as [|row rows] eqn:E;
    [discriminate|].
  assert (Hin : In row (filter (is_member p) (Members st)))
    by (rewrite E; now left).
  apply filter_In in Hin as [Hin Hp]. destruct p as [m|]; [|discriminate].
  cbn in Hp. apply Z.eqb_eq in Hp. exists m. split; [reflexivity|].
  unfold member_exists. apply in_map_iff. now exists row.
Qed.

Lemma no_rows_found (c m : Z) :
  (0 <? List.length
          (map chatmember_row
             (filter (is_chatmember (Some c) (Some m)) (ChatMembers st))))
  = false ->
  ~ In (c, m) (ChatMembers st).
Proof.
  rewrite length_map. intros H. apply memberships_zero. unfold memberships.
  destruct (List.length _); [reflexivity|discriminate].
Qed.

Lemma serve_put_store :
  let w := serve put request fl st in
  store w = st
  \/ exists c,
       chat_exists c st /\ member_exists caller st
       /\ ~ In (c, caller) (ChatMembers st)
       /\ store w = set_ChatMembers st (ChatMembers st ++ [(c, caller)]).
Proof.
  unfold serve, initial, put.
  step put_1; fork.
  all: step put_2; fork.
  all: step put_3; fork.
  all: step put_4; fork.
  all: step put_5; fork.
  all: right.
  all: match goal with
       | H : (List.length (map chat_row _) =? 0) = false |- _ =>
           apply chat_rows_found in H as (c & [= <-] & Hc)
       end.
  all: match goal with
       | H : (List.length (map member_row _) =? 0) = false |- _ =>
           apply member_rows_found in H as (m & [= <-] & Hm)
       end.
  all: match goal with
       | H : match List.length _ with 0 => false | S _ => true end = false |- _ =>
           apply (no_rows_found _ _) in H
       end.
  all: eexists; repeat split; eauto.
Qed.

Lemma forEach_store {A : Type} (f : A -> M unit) (l : list A) (w : World) :
  (forall x w, store (snd (f x w)) = store w) ->
  store (snd (forEach l f w)) = store w.
Proof.
  intros Hf. revert w. induction l as [|x l IH]; intros w; [reflexivity|].
  cbn. unfold bind. specialize (Hf x w).
  destruct (f x w) as [u w']. cbn in Hf. now rewrite IH.
Qed.

Lemma member_found (e : option string) (m : Member) (ms : list Member) :
  filter (has_email e) (Members st) = m :: ms -> member_exists (MemberId m) st.
Proof.
  intros E. assert (Hin : In m (filter (has_email e) (Members st)))
    by (rewrite E; now left).
  apply filter_In in Hin as [Hin _]. unfold member_exists.
  apply in_map_iff. now exists m.
Qed.

Lemma chat_found (c : Z) (row : Z * string) (rows : list (Z * string)) :
  filter (is_chat (Some c)) (Chats st) = row :: rows -> chat_exists c st.
Proof.
  intros E. destruct (chat_rows_found (Some c)) as (c' & [= <-] & H);
    [now rewrite E|exact H].
Qed.

Lemma serve_put_email_store :
  let w := serve put_email request fl st in
  store w = st
  \/ exists c m,
       chat_exists c st /\ member_exists m st
       /\ ~ In (c, m) (ChatMembers st)
       /\ store w = set_ChatMembers st (ChatMembers st ++ [(c, m)]).
Proof.
  unfold serve, initial, put_email.
  step put_email_1; fork.
  all: step put_email_2; fork.
  all: step put_email_3; fork.
  all: step put_email_4; fork.
  all: step put_email_5; fork.
  all: step put_email_6; fork.
  all: right.
  all: match goal with
       | H : filter (is_chat _) _ = _ :: _ |- _ =>
           apply chat_found in H
       end.
  all: match goal with
       | H : filter (has_email _) _ = _ :: _ |- _ =>
           apply member_found in H
       end.
  all: match goal with
       | H : match List.length _ with 0 => false | S _ => true end = false |- _ =>
           apply (no_rows_found _ _) in H
       end.
  all: eexists; eexists; repeat split; eauto.
  match goal with
  | |- context [forEach ?l ?f ?w] =>
      pose proof (forEach_store f l w (fun _ _ => eq_refl)) as E;
      destruct (forEach l f w) as [[] w']
  end.
  exact E.
Qed.

Lemma serve_delete_email_store :
  let w := serve delete_email request fl st in
  store w = st
  \/ exists c m,
       store w = set_ChatMembers st (without c m (ChatMembers st)).
Proof.
  unfold serve, initial, delete_email.
  step delete_email_1; fork.
  all: step delete_email_2; fork.
  all: step delete_email_3; fork.
  all: step delete_email_4; fork.
  all: step delete_email_5; fork.
  all: right; eexists; eexists; reflexivity.
Qed.

Lemma serve_delete_store :
  let w := serve delete request fl st in
  store w = st
  \/ exists c,
       let rows := without c caller (ChatMembers st) in
       store w = set_ChatMembers st rows
       \/ (filter (in_chat (Some c)) rows = []
           /\ store w =
                set_Chats (set_ChatMembers st rows)
                  (filter (fun r => negb (is_chat (Some c) r)) (Chats st))).
Proof.
  unfold serve, initial, delete.
  step delete_1; fork.
  all: step delete_2; fork.
  all: step delete_3; fork.
  all: step delete_4; fork.
  all: try (right; eexists; left; reflexivity).
  all: step delete_5; fork.
  all: try (right; eexists; left; reflexivity).
  all: right; eexists; right; split; [|reflexivity].
  all: match goal with
       | H : (0 <? Z.of_nat (List.length ?l))%Z = false |- _ =>
           apply Z.ltb_ge in H; apply length_zero_iff_nil;
           unfold without; lia
       end.
Qed.

Lemma serve_get_store :
  store (serve get request fl st) = st.
Proof.
  unfold serve, initial, get.
  step get_1; fork.
  all: step get_2; fork.
  all: step get_3; fork.
Qed.

Lemma serve_get_all_store :
  store (serve get_all request fl st) = st.
Proof.
  unfold serve, initial, get_all.
  step get_all_1; fork.
Qed.

Lemma serve_post_store :
  let c := (chats_chatid_seq st + 1)%Z in
  let w := serve post request fl st in
  store w = st
  \/ store w = set_seq st c
  \/ exists n,
       ~ chat_exists c st
       /\ store w = set_seq (set_Chats st (Chats st ++ [(c, n)])) c.
Proof.
  unfold serve, initial, post.
  step post_1; fork.
  all: step post_2; fork.
  all: unfold insert_chat;
    destruct (text_param (body_name request)) as [n|]; cbn; fork.
  - right. left. reflexivity.
  - right. right. exists n. split; [|reflexivity].
    now apply chat_present.
Qed.

End Outcomes.

(** X20: DeleteChat never removes the Chat row of a chat that has a
    membership row afterwards, whatever the request and whichever queries
    fail. *)
Lemma delete_spares_inhabited_chats (st : Store) (request : Request)
    (fl : list bool) (c m : Z) (n : string) :
  let w := serve delete request fl st in
  In (c, n) (Chats st) ->
  In (c, m) (ChatMembers (store w)) ->
  In (c, n) (Chats (store w)).
Proof.
  intros w Hchat Hrow. subst w.
  destruct (serve_delete_store st request fl) as [E|(c' & [E|[Hnone E]])];
    cbn zeta in E; rewrite E in *; cbn in *; auto.
  apply filter_In. split; [exact Hchat|]. apply negb_true_iff.
  apply (proj1 (filter_nil_iff _ _)) with (x := (c, m)) in Hnone;
    [exact Hnone|exact Hrow].
Qed.

(** ** The data model is kept *)

Section DataModel.

Variable st : Store.
Hypothesis model : data_model st.

Lemma data_model_join (c m : Z) :
  chat_exists c st -> member_exists m st -> ~ In (c, m) (ChatMembers st) ->
  data_model (set_ChatMembers st (ChatMembers st ++ [(c, m)])).
Proof.
  destruct model as (Hids & Hmids & Hchats & Hmembers & Hrows & Hgen).
  intros Hc Hm Hnew. repeat split; auto.
  - intros c' m' Hin. cbn in Hin.
    apply in_app_or in Hin as [Hin|[[= <- <-]|[]]]; [|exact Hc].
    exact (Hchats _ _ Hin).
  - intros c' m' Hin. cbn in Hin.
    apply in_app_or in Hin as [Hin|[[= <- <-]|[]]]; [|exact Hm].
    exact (Hmembers _ _ Hin).
  - cbn. apply NoDup_app; [exact Hrows|repeat constructor; intros []|].
    intros row Hin [<-|[]]. contradiction.
Qed.

Lemma data_model_without (c m : Z) :
  data_model (set_ChatMembers st (without c m (ChatMembers st))).
Proof.
  destruct model as (Hids & Hmids & Hchats & Hmembers & Hrows & Hgen).
  repeat split; auto.
  - intros c' m' Hin. cbn in Hin. apply in_without in Hin as [Hin _].
    exact (Hchats _ _ Hin).
  - intros c' m' Hin. cbn in Hin. apply in_without in Hin as [Hin _].
    exact (Hmembers _ _ Hin).
  - cbn. now apply NoDup_filter.
Qed.

Lemma data_model_teardown (c : Z) :
  filter (in_chat (Some c)) (ChatMembers st) = [] ->
  data_model
    (set_Chats st (filter (fun r => negb (is_chat (Some c) r)) (Chats st))).
Proof.
  destruct model as (Hids & Hmids & Hchats & Hmembers & Hrows & Hgen).
  intros Hnone. repeat split; auto.
  - cbn. clear - Hids. induction (Chats st) as [|[c' n] rows IH]; cbn;
      [constructor|]. inversion Hids as [|? ? Hout Hids']; subst.
    destruct (negb _); [|now apply IH]. cbn. constructor; [|now apply IH].
    intros Hin. apply Hout. apply in_map_iff in Hin as (row & E & Hin).
    apply filter_In in Hin as [Hin _]. apply in_map_iff. now exists row.
  - intros c' m' Hin. cbn in Hin. unfold chat_exists. cbn.
    pose proof (Hchats _ _ Hin) as Hc. apply in_map_iff in Hc
      as ([c'' n] & E & Hc). cbn in E. subst c''.
    apply in_map_iff. exists (c', n). split; [reflexivity|].
    apply filter_In. split; [exact Hc|]. apply negb_true_iff.
    exact (proj1 (filter_nil_iff _ _) Hnone (c', m') Hin).
  - intros c' Hc. apply Hgen. unfold chat_exists in *. cbn in Hc.
    apply in_map_iff in Hc as (row & E & Hc).
    apply filter_In in Hc as [Hc _]. apply in_map_iff. now exists row.
Qed.

Lemma data_model_seq :
  data_model (set_seq st (chats_chatid_seq st + 1)).
Proof.
  destruct model as (Hids & Hmids & Hchats & Hmembers & Hrows & Hgen).
  repeat split; auto.
  intros c Hc. cbn. specialize (Hgen c Hc). lia.
Qed.

Lemma data_model_create (n : string) :
  let c := (chats_chatid_seq st + 1)%Z in
  ~ chat_exists c st ->
  data_model (set_seq (set_Chats st (Chats st ++ [(c, n)])) c).
Proof.
  destruct model as (Hids & Hmids & Hchats & Hmembers & Hrows & Hgen).
  intros c Hfresh. repeat split; auto.
  - cbn. rewrite map_app. cbn.
    apply NoDup_app; [exact Hids|repeat constructor; intros []|].
    intros c' Hin [Hc|[]]. subst c'. contradiction.
  - intros c' m' Hin. cbn in Hin. unfold chat_exists. cbn.
    rewrite map_app. apply in_or_app. left. exact (Hchats _ _ Hin).
  - intros c' Hc. unfold chat_exists in Hc. cbn in Hc. rewrite map_app in Hc.
    cbn. apply in_app_or in Hc as [Hc|[Hc|[]]].
    + specialize (Hgen c' Hc). lia.
    + cbn in Hc. lia.
Qed.

End DataModel.

(** X19: every route keeps the invariants of the data model, whatever the
    request and whichever queries fail. *)
Theorem data_model_kept (e : Endpoint) (request : Request) (fl : list bool)
    (st : Store) :
  data_model st -> data_model (store (serve (handlers e) request fl st)).
Proof.
  intros model. destruct e; cbn [handlers].
  - destruct (serve_post_store st request fl) as [E|[E|(n & Hfresh & E)]];
      cbn zeta in E; rewrite E.
    + exact model.
    + now apply data_model_seq.
    + now apply data_model_create.
  - now rewrite serve_get_all_store.
  - destruct (serve_delete_store st request fl) as [E|(c & [E|[Hnone E]])];
      cbn zeta in E; rewrite E.
    + exact model.
    + now apply data_model_without.
    + apply (data_model_teardown
               (set_ChatMembers st
                  (without c (decoded_memberid request) (ChatMembers st))));
        [now apply data_model_without|exact Hnone].
  - destruct (serve_put_store st request fl)
      as [E|(c & Hc & Hm & Hnew & E)]; cbn zeta in E; rewrite E.
    + exact model.
    + now apply data_model_join.
  - destruct (serve_put_email_store st request fl)
      as [E|(c & m & Hc & Hm & Hnew & E)]; cbn zeta in E; rewrite E.
    + exact model.
    + now apply data_model_join.
  - now rewrite serve_get_store.
  - destruct (serve_delete_email_store st request fl) as [E|(c & m & E)];
      cbn zeta in E; rewrite E.
    + exact model.
    + now apply data_model_without.
Qed.

(** * More of the routes *)

(** ** The checks before the store is asked *)

(** X1: on every route with a [chatId], a request whose [chatId] is absent
    or empty, or, on the two by-email routes, whose email is, is answered
    MissingParameter before any statement is sent, whatever else the
    request holds: the presence check comes before the numeric one. *)
Theorem missing_parameter_is_refused (e : Endpoint) (request : Request)
    (fl : list bool) (st : Store) :
  chat_scoped e = true ->
  truthy (params_chatId request) = false
  \/ (takes_email e = true /\ truthy (params_email request) = false) ->
  serve (handlers e) request fl st =
    {| store := st; faults := fl; trace := [EvSend MissingParameter] |}.
Proof.
  intros Hscope Hmiss. unfold serve, initial.
  destruct e; try discriminate Hscope; cbn [handlers];
    destruct Hmiss as [Hc|[He Hm]]; try discriminate He.
  - unfold delete. step delete_1. now rewrite Hc.
  - unfold put. step put_1. now rewrite Hc.
  - unfold put_email. step put_email_1. now rewrite Hc.
  - unfold put_email. step put_email_1. rewrite Hm.
    now rewrite orb_true_r.
  - unfold get. step get_1. now rewrite Hc.
  - unfold delete_email. step delete_email_1. now rewrite Hc.
  - unfold delete_email. step delete_email_1. rewrite Hm.
    now rewrite orb_true_r.
Qed.

Lemma missing_parameter_is_refused_witness :
  serve (handlers PUT_chat_email)
    (request_chat_email 7 (Str "abc") (Str "")) [true] Sample.store =
    {| store := Sample.store; faults := [true];
       trace := [EvSend MissingParameter] |}.
Proof.
  apply (missing_parameter_is_refused PUT_chat_email
           (request_chat_email 7 (Str "abc") (Str "")) [true] Sample.store).
  - reflexivity.
  - right. split; reflexivity.
Defined.

(** ** What is not there *)

(** X2: on every route with a [chatId], a [chatId] that names no chat is
    answered ChatNotFound (404) after the one lookup of the chat: neither
    the member nor the email is looked up, and the store is as it was. *)
Theorem unknown_chat_is_not_found (e : Endpoint) (request : Request)
    (s : string) (c : Z) (st : Store) :
  chat_scoped e = true ->
  params_chatId request = Str s ->
  int4in s = Ok c ->
  ~ chat_exists c st ->
  (takes_email e = true -> truthy (params_email request) = true) ->
  serve (handlers e) request [] st =
    {| store := st; faults := [];
       trace := [EvQuery (SelectChat (Str s)); EvSend ChatNotFound] |}.
Proof.
  intros Hscope Hid Hs Hc He. destruct (int4in_numeric s c Hs) as [Ht Hn].
  pose proof (chat_rows_none st c Hc) as Hnone.
  unfold serve, initial.
  destruct e; try discriminate Hscope; cbn [handlers].
  - unfold delete. step delete_1. rewrite Hid, Ht, Hn. cbn.
    step delete_2. rewrite Hid. cbn. rewrite Hs. cbn. now rewrite Hnone.
  - unfold put. step put_1. rewrite Hid, Ht, Hn. cbn.
    step put_2. rewrite Hid. cbn. rewrite Hs. cbn. now rewrite Hnone.
  - unfold put_email. step put_email_1. rewrite Hid, Ht, (He eq_refl), Hn. cbn.
    step put_email_2. rewrite Hid. cbn. rewrite Hs. cbn. now rewrite Hnone.
  - unfold get. step get_1. rewrite Hid, Ht, Hn. cbn.
    step get_2. rewrite Hid. cbn. rewrite Hs. cbn. now rewrite Hnone.
  - unfold delete_email. step delete_email_1.
    rewrite Hid, Ht, (He eq_refl), Hn. cbn.
    step delete_email_2. rewrite Hid. cbn. rewrite Hs. cbn.
    now rewrite Hnone.
Qed.

Lemma unknown_chat_is_not_found_witness :
  serve (handlers PUT_chat_email)
    (request_chat_email 7 (Str "9") (Str "nobody@uw.edu")) [] Sample.store =
    {| store := Sample.store; faults := [];
       trace := [EvQuery (SelectChat (Str "9")); EvSend ChatNotFound] |}.
Proof.
  apply (unknown_chat_is_not_found PUT_chat_email
           (request_chat_email 7 (Str "9") (Str "nobody@uw.edu")) "9" 9
           Sample.store).
  - reflexivity.
  - reflexivity.
  - reflexivity.
  - cbn. intros [H|[H|[]]]; discriminate.
  - reflexivity.
Defined.

Lemma member_rows_none (st : Store) (m : Z) :
  ~ member_exists m st -> filter (is_member (Some m)) (Members st) = [].
Proof.
  intros H. apply filter_nil_iff. intros row Hin. cbn.
  apply Z.eqb_neq. intros E. apply H. unfold member_exists.
  rewrite E. now apply in_map.
Qed.

(** X4: a caller who is not in the Members table cannot join: the chat is
    found, the member is not, the answer is 404 "email not found" and no
    membership row is written. *)
Theorem unknown_caller_cannot_join (st : Store) (s : string) (c caller : Z) :
  int4in s = Ok c ->
  chat_exists c st ->
  ~ member_exists caller st ->
  serve put (request_chat caller (Str s)) [] st =
    {| store := st; faults := [];
       trace :=
         [EvQuery (SelectChat (Str s));
          EvQuery (SelectMemberById (Num caller));
          EvSend {| status := 404; body := Message "email not found" |}] |}.
Proof.
  intros Hs Hc Hm. destruct (int4in_numeric s c Hs) as [Ht Hn].
  pose proof (chat_rows_exist st c Hc) as Hrows.
  unfold serve, initial, put.
  step put_1. rewrite Ht, Hn. cbn.
  step put_2. rewrite Hs. cbn. rewrite length_map.
  destruct (filter (is_chat (Some c)) (Chats st)) as [|row rows];
    [congruence|]. cbn.
  step put_3. now rewrite (member_rows_none st caller Hm).
Qed.

Lemma unknown_caller_cannot_join_witness :
  serve put (request_chat 99 (Str "1")) [] Sample.store =
    {| store := Sample.store; faults := [];
       trace :=
         [EvQuery (SelectChat (Str "1"));
          EvQuery (SelectMemberById (Num 99));
          EvSend {| status := 404; body := Message "email not found" |}] |}.
Proof.
  apply (unknown_caller_cannot_join Sample.store "1" 1 99).
  - reflexivity.
  - cbn. auto.
  - cbn. intros [H|[H|[]]]; discriminate.
Defined.

Section ByEmail.

Variables (st : Store) (s e : string) (c caller : Z).
Hypothesis chatId_reads : int4in s = Ok c.
Hypothesis email_given : e <> "".
Hypothesis chat_there : chat_exists c st.

Local Abbreviation request := (request_chat_email caller (Str s) (Str e)).

(** The world after trying to add an email nobody has. *)
Lemma serve_put_email_unknown :
  member_by_email e st = None ->
  serve put_email request [] st =
    {| store := st; faults := [];
       trace :=
         [EvQuery (SelectChat (Str s));
          EvQuery (SelectMemberByEmail (Str e));
          EvSend {| status := 404; body := Message "User not found" |}] |}.
Proof.
  intros Hnone. destruct (int4in_numeric s c chatId_reads) as [Ht Hn].
  pose proof (chat_rows_exist st c chat_there) as Hrows.
  unfold member_by_email in Hnone.
  unfold serve, initial, put_email.
  step put_email_1. rewrite Ht, (truthy_Str e email_given), Hn. cbn.
  step put_email_2. rewrite chatId_reads. cbn. rewrite length_map.
  destruct (filter (is_chat (Some c)) (Chats st)) as [|row rows];
    [congruence|]. cbn.
  step put_email_3.
  destruct (filter (has_email (Some e)) (Members st)); [|discriminate].
  reflexivity.
Qed.

(** The world after trying to remove an email nobody has. *)
Lemma serve_delete_email_unknown :
  member_by_email e st = None ->
  serve delete_email request [] st =
    {| store := st; faults := [];
       trace :=
         [EvQuery (SelectChat (Str s));
          EvQuery (SelectMemberIdByEmail (Str e));
          EvSend {| status := 404; body := Message "email not found" |}] |}.
Proof.
  intros Hnone. destruct (int4in_numeric s c chatId_reads) as [Ht Hn].
  pose proof (chat_rows_exist st c chat_there) as Hrows.
  unfold member_by_email in Hnone.
  unfold serve, initial, delete_email.
  step delete_email_1. rewrite Ht, (truthy_Str e email_given), Hn. cbn.
  step delete_email_2. rewrite chatId_reads. cbn. rewrite length_map.
  destruct (filter (is_chat (Some c)) (Chats st)) as [|row rows];
    [congruence|]. cbn.
  step delete_email_3.
  destruct (filter (has_email (Some e)) (Members st)); [|discriminate].
  reflexivity.
Qed.

Variable m : Member.
Hypothesis email_resolves : member_by_email e st = Some m.

(** The world after trying to add someone who is in the chat. *)
Lemma serve_put_email_duplicate :
  In (c, MemberId m) (ChatMembers st) ->
  serve put_email request [] st =
    {| store := st; faults := [];
       trace :=
         [EvQuery (SelectChat (Str s));
          EvQuery (SelectMemberByEmail (Str e));
          EvQuery (SelectChatMember (Str s) (Num (MemberId m)));
          EvSend DuplicateMembership] |}.
Proof.
  intros Hin. destruct (int4in_numeric s c chatId_reads) as [Ht Hn].
  pose proof (chat_rows_exist st c chat_there) as Hrows.
  assert (Hrow : In (c, MemberId m)
            (filter (is_chatmember (Some c) (Some (MemberId m)))
               (ChatMembers st))).
  { apply filter_In. split; [exact Hin|]. now apply is_chatmember_iff. }
  unfold member_by_email in email_resolves.
  unfold serve, initial, put_email.
  step put_email_1. rewrite Ht, (truthy_Str e email_given), Hn. cbn.
  step put_email_2. rewrite chatId_reads. cbn. rewrite length_map.
  destruct (filter (is_chat (Some c)) (Chats st)) as [|row rows];
    [congruence|]. cbn.
  step put_email_3.
  destruct (filter (has_email (Some e)) (Members st)) as [|m' ms];
    [discriminate|]. cbn in email_resolves. injection email_resolves as ->.
  cbn.
  step put_email_4. rewrite chatId_reads. cbn.
  destruct (filter (is_chatmember (Some c) (Some (MemberId m)))
              (ChatMembers st)); [destruct Hrow|].
  reflexivity.
Qed.

(** The world after a member was removed by email. *)
Lemma serve_delete_email :
  In (c, MemberId m) (ChatMembers st) ->
  serve delete_email request [] st =
    {| store := set_ChatMembers st (without c (MemberId m) (ChatMembers st));
       faults := [];
       trace :=
         [EvQuery (SelectChat (Str s));
          EvQuery (SelectMemberIdByEmail (Str e));
          EvQuery (SelectChatMember (Str s) (Num (MemberId m)));
          EvQuery (DeleteChatMember (Str s) (Num (MemberId m)));
          EvSend OK] |}.
Proof.
  intros Hin. destruct (int4in_numeric s c chatId_reads) as [Ht Hn].
  pose proof (chat_rows_exist st c chat_there) as Hrows.
  assert (Hrow : In (c, MemberId m)
            (filter (is_chatmember (Some c) (Some (MemberId m)))
               (ChatMembers st))).
  { apply filter_In. split; [exact Hin|]. now apply is_chatmember_iff. }
  unfold member_by_email in email_resolves.
  unfold serve, initial, delete_email.
  step delete_email_1. rewrite Ht, (truthy_Str e email_given), Hn. cbn.
  step delete_email_2. rewrite chatId_reads. cbn. rewrite length_map.
  destruct (filter (is_chat (Some c)) (Chats st)) as [|row rows];
    [congruence|]. cbn.
  step delete_email_3.
  destruct (filter (has_email (Some e)) (Members st)) as [|m' ms];
    [discriminate|]. cbn in email_resolves. injection email_resolves as ->.
  cbn.
  step delete_email_4. rewrite chatId_reads. cbn.
  destruct (filter (is_chatmember (Some c) (Some (MemberId m)))
              (ChatMembers st)) eqn:E; [destruct Hrow|]. cbn.
  step delete_email_5. rewrite chatId_reads. cbn.
  reflexivity.
Qed.

End ByEmail.

(** X5: an email that no member has is neither added nor removed: adding
    answers 404 "User not found", removing 404 "email not found", each
    after the lookup of the chat and of the email; nothing is written and
    nobody is notified. *)
Theorem unknown_email_is_not_found (st : Store) (s e : string) (c caller : Z) :
  int4in s = Ok c ->
  e <> "" ->
  chat_exists c st ->
  member_by_email e st = None ->
  let request := request_chat_email caller (Str s) (Str e) in
  let w := serve put_email request [] st in
  let w' := serve delete_email request [] st in
  (response w = Some {| status := 404; body := Message "User not found" |}
   /\ store w = st /\ pushes (trace w) = []
   /\ queries (trace w) = [SelectChat (Str s); SelectMemberByEmail (Str e)])
  /\ (response w'
      = Some {| status := 404; body := Message "email not found" |}
      /\ store w' = st
      /\ queries (trace w')
         = [SelectChat (Str s); SelectMemberIdByEmail (Str e)]).
Proof.
  intros Hs He Hc Hnone request w w'. subst w w' request.
  rewrite (serve_put_email_unknown st s e c caller Hs He Hc Hnone).
  rewrite (serve_delete_email_unknown st s e c caller Hs He Hc Hnone).
  repeat split.
Qed.

Lemma unknown_email_is_not_found_witness :
  let request := request_chat_email 7 (Str "1") (Str "carol@uw.edu") in
  let w := serve put_email request [] Sample.store in
  let w' := serve delete_email request [] Sample.store in
  (response w = Some {| status := 404; body := Message "User not found" |}
   /\ store w = Sample.store /\ pushes (trace w) = []
   /\ queries (trace w)
      = [SelectChat (Str "1"); SelectMemberByEmail (Str "carol@uw.edu")])
  /\ (response w'
      = Some {| status := 404; body := Message "email not found" |}
      /\ store w' = Sample.store
      /\ queries (trace w')
         = [SelectChat (Str "1"); SelectMemberIdByEmail (Str "carol@uw.edu")]).
Proof.
  apply (unknown_email_is_not_found Sample.store "1" "carol@uw.edu" 1 7).
  - reflexivity.
  - discriminate.
  - cbn. auto.
  - reflexivity.
Defined.

(** X6: adding by email someone who is already in the chat answers
    DuplicateMembership; no row is written and no notification is
    dispatched. *)
Theorem add_by_email_twice_is_refused (st : Store) (s e : string)
    (c caller : Z) (m : Member) :
  int4in s = Ok c ->
  e <> "" ->
  chat_exists c st ->
  member_by_email e st = Some m ->
  In (c, MemberId m) (ChatMembers st) ->
  let w := serve put_email (request_chat_email caller (Str s) (Str e)) [] st in
  response w = Some DuplicateMembership
  /\ store w = st
  /\ pushes (trace w) = []
  /\ forallb (fun q => negb (is_mutation q)) (queries (trace w)) = true.
Proof.
  intros Hs He Hc Hm Hin w. subst w.
  rewrite (serve_put_email_duplicate st s e c caller Hs He Hc m Hm Hin).
  repeat split.
Qed.

Lemma add_by_email_twice_is_refused_witness :
  let w := serve put_email
             (request_chat_email 7 (Str "1") (Str "bob@uw.edu")) []
             Sample.store in
  response w = Some DuplicateMembership
  /\ store w = Sample.store
  /\ pushes (trace w) = []
  /\ forallb (fun q => negb (is_mutation q)) (queries (trace w)) = true.
Proof.
  apply (add_by_email_twice_is_refused Sample.store "1" "bob@uw.edu" 1 7
           Sample.bob).
  - reflexivity.
  - discriminate.
  - cbn. auto.
  - reflexivity.
  - cbn. auto.
Defined.

Lemma select_info_none (st : Store) (c : Z) :
  filter (in_chat (Some c)) (ChatMembers st) = [] ->
  select_chatmember_info (Some c) st = [].
Proof. unfold select_chatmember_info. now intros ->. Qed.

(** X7: removing a member by email removes the rows of that pair and
    nothing else; the Chat row stays even when the member was the last
    one, and the members of that chat are then listed as an empty list
    (200, no row), not as ChatNotFound. *)
Theorem remove_by_email_keeps_the_chat (st : Store) (s e : string)
    (c caller : Z) (m : Member) :
  int4in s = Ok c ->
  e <> "" ->
  chat_exists c st ->
  member_by_email e st = Some m ->
  In (c, MemberId m) (ChatMembers st) ->
  let w := serve delete_email
             (request_chat_email caller (Str s) (Str e)) [] st in
  response w = Some OK
  /\ ChatMembers (store w) = without c (MemberId m) (ChatMembers st)
  /\ ~ In (c, MemberId m) (ChatMembers (store w))
  /\ Chats (store w) = Chats st
  /\ ~ In (DeleteChat (Str s)) (queries (trace w))
  /\ ((forall m', In (c, m') (ChatMembers st) -> m' = MemberId m) ->
      response (serve get (request_chat caller (Str s)) [] (store w))
      = Some {| status := 200; body := RowCountRows 0 [] |}).
Proof.
  intros Hs He Hc Hm Hin w. subst w.
  rewrite (serve_delete_email st s e c caller Hs He Hc m Hm Hin). cbn.
  split; [reflexivity|]. split; [reflexivity|]. split; [|split; [reflexivity|split]].
  - intros H. now apply in_without in H as [_ H].
  - intros [H|[H|[H|[H|[]]]]]; discriminate.
  - intros Hall.
    rewrite (serve_get
               (set_ChatMembers st (without c (MemberId m) (ChatMembers st)))
               caller s c Hs Hc).
    rewrite select_info_none; [reflexivity|].
    exact (nobody_left st c (MemberId m) Hall).
Qed.

Lemma remove_by_email_keeps_the_chat_witness :
  let w := serve delete_email
             (request_chat_email 8 (Str "2") (Str "alice@uw.edu")) []
             Sample.store in
  response w = Some OK
  /\ ChatMembers (store w) = without 2 7 (ChatMembers Sample.store)
  /\ ~ In (2, 7)%Z (ChatMembers (store w))
  /\ Chats (store w) = Chats Sample.store
  /\ ~ In (DeleteChat (Str "2")) (queries (trace w))
  /\ response (serve get (request_chat 8 (Str "2")) [] (store w))
     = Some {| status := 200; body := RowCountRows 0 [] |}.
Proof.
  destruct (remove_by_email_keeps_the_chat Sample.store "2" "alice@uw.edu"
              2 8 Sample.alice) as (H1 & H2 & H3 & H4 & H5 & H6).
  - reflexivity.
  - discriminate.
  - cbn. auto.
  - reflexivity.
  - cbn. auto.
  - split; [exact H1|]. split; [exact H2|]. split; [exact H3|].
    split; [exact H4|]. split; [exact H5|]. apply H6.
    intros m' [H|[H|[H|[]]]]; cbn; congruence.
Defined.

Lemma without_new (c m : Z) (rows : list (Z * Z)) :
  ~ In (c, m) rows -> without c m (rows ++ [(c, m)]) = rows.
Proof.
  intros Hnew. unfold without. rewrite filter_app. cbn.
  rewrite (proj2 (is_chatmember_iff c m (c, m)) eq_refl). cbn.
  rewrite app_nil_r. induction rows as [|row rows IH]; [reflexivity|]. cbn.
  destruct (is_chatmember (Some c) (Some m) row) eqn:E.
  - apply is_chatmember_iff in E. subst row. destruct Hnew. now left.
  - cbn. f_equal. apply IH. intros H. apply Hnew. now right.
Qed.

Lemma drop_fresh_chat (st : Store) (c : Z) (n : string) :
  ~ chat_exists c st ->
  filter (fun r => negb (is_chat (Some c) r)) (Chats st ++ [(c, n)])
  = Chats st.
Proof.
  intros Hfresh. rewrite filter_app. cbn. rewrite Z.eqb_refl. cbn.
  rewrite app_nil_r. unfold chat_exists in Hfresh.
  induction (Chats st) as [|[c' n'] rows IH]; [reflexivity|]. cbn.
  destruct (Z.eqb_spec c c') as [->|_].
  - destruct Hfresh. now left.
  - cbn. f_equal. apply IH. intros H. apply Hfresh. now right.
Qed.

(** X8: add by email, then remove by email: the store is back to what it
    was, row for row. *)
Theorem add_then_remove_by_email (st : Store) (s e chat : string)
    (c caller : Z) (m : Member) :
  int4in s = Ok c ->
  e <> "" ->
  chat_name c st = Some chat ->
  member_by_email e st = Some m ->
  memberships c (MemberId m) st = 0 ->
  let request := request_chat_email caller (Str s) (Str e) in
  let w1 := serve put_email request [] st in
  let w2 := serve delete_email request [] (store w1) in
  response w1 = Some OK
  /\ response w2 = Some OK
  /\ store w2 = st.
Proof.
  intros Hs He Hn Hm Hout request w1 w2. subst request.
  assert (Hc : chat_exists c st).
  { unfold chat_name in Hn.
    destruct (filter (is_chat (Some c)) (Chats st)) as [|row rows] eqn:E;
      [discriminate|].
    assert (H : In row (filter (is_chat (Some c)) (Chats st)))
      by (rewrite E; now left).
    apply filter_In in H as [H Hrow]. destruct row as [c' n']. cbn in Hrow.
    apply Z.eqb_eq in Hrow. subst c'. unfold chat_exists.
    apply in_map_iff. now exists (c, n'). }
  pose proof (serve_put_email st s e chat c caller m Hs He Hn Hm Hout) as E1.
  fold w1 in E1.
  assert (Hin : In (c, MemberId m)
                  (ChatMembers (with_member st c (MemberId m)))).
  { cbn. apply in_or_app. right. now left. }
  pose proof (serve_delete_email (with_member st c (MemberId m)) s e c caller
                Hs He Hc m Hm Hin) as E2.
  replace (with_member st c (MemberId m)) with (store w1) in E2 at 1
    by now rewrite E1.
  fold w2 in E2. split; [|split].
  - rewrite E1. unfold response. cbn.
    now rewrite responses_app, responses_newRoom.
  - now rewrite E2.
  - rewrite E2. cbn [store]. unfold with_member, set_ChatMembers.
    cbn [ChatMembers Chats Members Push_Token chats_chatid_seq].
    rewrite without_new by now apply memberships_zero.
    now destruct st.
Qed.

Lemma add_then_remove_by_email_witness :
  let request := request_chat_email 7 (Str "2") (Str "bob@uw.edu") in
  let w1 := serve put_email request [] Sample.store in
  let w2 := serve delete_email request [] (store w1) in
  response w1 = Some OK
  /\ response w2 = Some OK
  /\ store w2 = Sample.store.
Proof.
  apply (add_then_remove_by_email Sample.store "2" "bob@uw.edu" "notes" 2 7
           Sample.bob); try reflexivity.
  discriminate.
Defined.

(** X9: join, then leave: when somebody else is in the chat the store is
    back to what it was, row for row; when nobody is, the leave takes the
    Chat row with it. *)
Theorem join_then_leave (st : Store) (s : string) (c caller : Z) :
  int4in s = Ok c ->
  chat_exists c st ->
  member_exists caller st ->
  memberships c caller st = 0 ->
  let w1 := serve put (request_chat caller (Str s)) [] st in
  let w2 := serve delete (request_chat caller (Str s)) [] (store w1) in
  response w1 = Some OK
  /\ response w2 = Some OK
  /\ ChatMembers (store w2) = ChatMembers st
  /\ (members_of c st <> [] -> store w2 = st)
  /\ (members_of c st = [] -> ~ chat_exists c (store w2)).
Proof.
  intros Hs Hc Hm Hnew w1 w2.
  pose proof (serve_put_join st s c caller Hs Hc Hm Hnew) as E1. fold w1 in E1.
  assert (Hout : ~ In (c, caller) (ChatMembers st))
    by now apply memberships_zero.
  set (st1 := set_ChatMembers st (ChatMembers st ++ [(c, caller)])) in *.
  assert (Hback : set_ChatMembers st1 (without c caller (ChatMembers st1)) = st).
  { unfold st1, set_ChatMembers.
    cbn [ChatMembers Chats Members Push_Token chats_chatid_seq].
    rewrite (without_new c caller _ Hout). now destruct st. }
  assert (Hw2 : w2 = serve delete (request_chat caller (Str s)) [] st1)
    by (subst w2; now rewrite E1).
  destruct (members_of c st) as [|m' ms] eqn:Hmembers.
  - assert (Hall : forall m, In (c, m) (ChatMembers st1) -> m = caller).
    { intros m Hin. unfold st1 in Hin. cbn in Hin.
      apply in_app_or in Hin as [Hin|[[= <-]|[]]]; [|reflexivity].
      unfold members_of in Hmembers. apply map_eq_nil in Hmembers.
      apply (proj1 (filter_nil_iff _ _)) with (x := (c, m)) in Hmembers;
        [|exact Hin].
      unfold in_chat in Hmembers. cbn in Hmembers.
      now rewrite Z.eqb_refl in Hmembers. }
    pose proof (serve_delete_last st1 s c caller Hs Hc Hall) as E2.
    rewrite <- Hw2 in E2. rewrite Hback in E2.
    rewrite E1, E2. cbn. repeat split; try congruence.
    intros _ H. unfold chat_exists in H. cbn in H.
    apply in_map_iff in H as ([c' n] & E & H). cbn in E. subst c'.
    apply filter_In in H as [_ H]. cbn in H. now rewrite Z.eqb_refl in H.
  - assert (Hin : In (c, m') (ChatMembers st1)).
    { unfold st1. cbn. apply in_or_app. left.
      assert (H : In m' (members_of c st)) by (rewrite Hmembers; now left).
      unfold members_of in H. apply in_map_iff in H as ([c' m''] & E & H).
      cbn in E. subst m''. apply filter_In in H as [H Hc'].
      unfold in_chat in Hc'. cbn in Hc'. apply Z.eqb_eq in Hc'. now subst c'. }
    assert (Hother : m' <> caller).
    { intros ->. apply Hout. unfold st1 in Hin. cbn in Hin.
      apply in_app_or in Hin as [Hin|[Hin|[]]]; [exact Hin|].
      assert (H : In caller (members_of c st)) by (rewrite Hmembers; now left).
      unfold members_of in H. apply in_map_iff in H as ([c' m''] & E & H).
      cbn in E. subst m''. apply filter_In in H as [H Hc'].
      unfold in_chat in Hc'. cbn in Hc'. apply Z.eqb_eq in Hc'. now subst c'. }
    pose proof (serve_delete_others st1 s c caller Hs Hc m' Hin Hother) as E2.
    rewrite <- Hw2 in E2. rewrite Hback in E2.
    rewrite E1, E2. cbn. repeat split; congruence.
Qed.

Lemma join_then_leave_witness :
  let w1 := serve put (request_chat 8 (Str "2")) [] Sample.store in
  let w2 := serve delete (request_chat 8 (Str "2")) [] (store w1) in
  response w1 = Some OK
  /\ response w2 = Some OK
  /\ ChatMembers (store w2) = ChatMembers Sample.store
  /\ (members_of 2 Sample.store <> [] -> store w2 = Sample.store)
  /\ (members_of 2 Sample.store = [] -> ~ chat_exists 2 (store w2)).
Proof.
  apply (join_then_leave Sample.store "2" 2 8).
  - reflexivity.
  - cbn. auto.
  - cbn. auto.
  - reflexivity.
Defined.

(** X10: a chat that was just created can be deleted by anyone, member of
    anything or not: create, then delete under the returned id, and the
    Chats and ChatMembers tables are back to what they were; only the
    generator of ids has moved on. *)
Theorem create_then_delete (st : Store) (n : string) (creator caller : Z) :
  data_model st ->
  n <> "" ->
  in_int4 (chats_chatid_seq st + 1) = true ->
  let c := (chats_chatid_seq st + 1)%Z in
  let w1 := serve post (request_post creator (Str n)) [] st in
  let w2 := serve delete (request_chat caller (Str (Number_toString c))) []
              (store w1) in
  response w1 = Some {| status := 201; body := SuccessChatID (Num c) |}
  /\ response w2 = Some OK
  /\ store w2 = set_seq st c.
Proof.
  intros (_ & _ & Href & _ & _ & Hgen) Hn Hrange c w1 w2.
  pose proof (next_id_is_fresh st Hgen) as Hfresh. fold c in Hfresh.
  pose proof (int4in_Number_toString c Hrange) as Hs.
  pose proof (serve_post st creator n Hn Hrange Hfresh) as E1.
  fold c w1 in E1.
  set (st1 := set_seq (set_Chats st (Chats st ++ [(c, n)])) c) in *.
  assert (Hc1 : chat_exists c st1).
  { unfold chat_exists, st1. cbn. rewrite map_app. apply in_or_app.
    right. now left. }
  assert (Hnone : forall m, ~ In (c, m) (ChatMembers st1)).
  { intros m Hin. apply Hfresh. exact (Href _ _ Hin). }
  assert (Hall : forall m, In (c, m) (ChatMembers st1) -> m = caller).
  { intros m Hin. now apply Hnone in Hin. }
  pose proof (serve_delete_last st1 _ c caller Hs Hc1 Hall) as E2.
  replace st1 with (store w1) in E2 at 1 by now rewrite E1.
  fold w2 in E2. rewrite E1, E2. cbn [store]. split; [reflexivity|].
  split; [reflexivity|].
  rewrite (without_stranger st1 c caller (Hnone caller)).
  unfold st1, set_Chats, set_ChatMembers, set_seq.
  cbn [ChatMembers Chats Members Push_Token chats_chatid_seq].
  now rewrite (drop_fresh_chat st c n Hfresh).
Qed.

Lemma create_then_delete_witness :
  let c := 3%Z in
  let w1 := serve post (request_post 7 (Str "Team")) [] Sample.store in
  let w2 := serve delete (request_chat 99 (Str (Number_toString c))) []
              (store w1) in
  response w1 = Some {| status := 201; body := SuccessChatID (Num c) |}
  /\ response w2 = Some OK
  /\ store w2 = set_seq Sample.store c.
Proof.
  apply (create_then_delete Sample.store "Team" 7 99).
  - exact sample_data_model.
  - discriminate.
  - reflexivity.
Defined.

Section Listings.

Variable st : Store.
Hypothesis model : data_model st.






End Listings.





(** X3: a [chatId] that passes the numeric check of the routes and that
    the store cannot read as an integer reaches the store, and the request
    is answered 400 "SQL Error" with the store's error, on every route
    with a [chatId]. *)
Theorem unreadable_chatId_is_a_store_error (e : Endpoint) (request : Request)
    (s : string) (err : StoreErr) (st : Store) :
  chat_scoped e = true ->
  params_chatId request = Str s ->
  truthy (Str s) = true ->
  isNaN (Str s) = false ->
  int4in s = Err err ->
  (takes_email e = true -> truthy (params_email request) = true) ->
  serve (handlers e) request [] st =
    {| store := st; faults := [];
       trace :=
         [EvQuery (SelectChat (Str s));
          EvSend {| status := 400;
                    body := MessageError "SQL Error" (StoreError err) |}] |}.
Proof.
  intros Hscope Hid Ht Hn Hs He. unfold serve, initial.
  destruct e; try discriminate Hscope; cbn [handlers].
  - unfold delete. step delete_1. rewrite Hid, Ht, Hn. cbn.
    step delete_2. rewrite Hid. cbn. now rewrite Hs.
  - unfold put. step put_1. rewrite Hid, Ht, Hn. cbn.
    step put_2. rewrite Hid. cbn. now rewrite Hs.
  - unfold put_email. step put_email_1. rewrite Hid, Ht, (He eq_refl), Hn. cbn.
    step put_email_2. rewrite Hid. cbn. now rewrite Hs.
  - unfold get. step get_1. rewrite Hid, Ht, Hn. cbn.
    step get_2. rewrite Hid. cbn. now rewrite Hs.
  - unfold delete_email. step delete_email_1.
    rewrite Hid, Ht, (He eq_refl), Hn. cbn.
    step delete_email_2. rewrite Hid. cbn. now rewrite Hs.
Qed.

Lemma unreadable_chatId_is_a_store_error_witness :
  serve (handlers GET_chat) (request_chat 7 (Str "1e3")) [] Sample.store =
    {| store := Sample.store; faults := [];
       trace :=
         [EvQuery (SelectChat (Str "1e3"));
          EvSend {| status := 400;
                    body := MessageError "SQL Error"
                              (StoreError (InvalidTextRepresentation "1e3")) |}]
    |}.
Proof.
  apply (unreadable_chatId_is_a_store_error GET_chat
           (request_chat 7 (Str "1e3")) "1e3"
           (InvalidTextRepresentation "1e3") Sample.store);
    try reflexivity.
  discriminate.
Defined.

(** Every path of a chain: split on the next failing query, on what the
    store makes of a parameter, and on each test of the handlers. *)
Ltac paths :=
  repeat (match goal with
          | H : int4_param ?v = _ |- context [int4_param ?v] => rewrite H
          | |- context [parseInt (Str (Number_toString (Z.of_nat _)))] =>
              rewrite parseInt_count
          | |- context [next_fault ?l] =>
              is_var l; destruct l as [|[|] ?]
          | |- context [match int4_param ?v with _ => _ end] =>
              destruct (int4_param v) as [[?|]|?] eqn:?; try null_param
          | |- context [match map ?f (filter ?p ?l) with _ => _ end] =>
              destruct (filter p l) eqn:?
          | |- context [if ?b then _ else _] => destruct b eqn:?
          end; cbn).

Lemma forEach_emit {A : Type} (g : A -> Event) (l : list A) (w : World) :
  forEach l
    (fun x w => (tt, {| store := store w; faults := faults w;
                        trace := trace w ++ [g x] |})) w
  = (tt, {| store := store w; faults := faults w;
            trace := trace w ++ map g l |}).
Proof.
  revert w. induction l as [|x l IH]; intros w.
  - cbn. unfold ret. rewrite app_nil_r. now destruct w.
  - cbn [forEach]. unfold bind. rewrite IH. cbn. now rewrite <- app_assoc.
Qed.

Lemma queries_app (tr tr' : list Event) :
  queries (tr ++ tr') = queries tr ++ queries tr'.
Proof.
  induction tr as [|[q|t a c n|r] tr IH]; cbn; rewrite ?IH; reflexivity.
Qed.

Lemma queries_push (A : Type) (f : A -> JsVal) (a : string) (c n : JsVal)
    (l : list A) :
  queries (map (fun x => EvSendChatAction (f x) a c n) l) = [].
Proof. induction l; cbn; auto. Qed.

Lemma responses_push (A : Type) (f : A -> JsVal) (a : string) (c n : JsVal)
    (l : list A) :
  responses (map (fun x => EvSendChatAction (f x) a c n) l) = [].
Proof. induction l; cbn; auto. Qed.

Section AnyRun.

Variables (st : Store) (request : Request).

(** X15: the two listing routes only read: whatever the request and
    whichever queries fail, the store is as it was, no statement that
    changes a row is sent and nobody is notified. *)
Theorem listings_only_read (fl : list bool) :
  let w := serve get request fl st in
  let w' := serve get_all request fl st in
  (store w = st
   /\ forallb (fun q => negb (is_mutation q)) (queries (trace w)) = true
   /\ pushes (trace w) = [])
  /\ (store w' = st
      /\ forallb (fun q => negb (is_mutation q)) (queries (trace w')) = true
      /\ pushes (trace w') = []).
Proof.
  split.
  - unfold serve, initial, get.
    step get_1; paths. 1,2: repeat split.
    all: step get_2; paths. all: try solve [repeat split].
    all: step get_3; paths. all: repeat split.
  - unfold serve, initial, get_all.
    step get_all_1; paths. all: repeat split.
Qed.

End AnyRun.

Section Notifications.

Variables (st : Store) (request : Request) (fl : list bool).

Lemma get_never_notifies : pushes (trace (serve get request fl st)) = [].
Proof.
  unfold serve, initial, get.
  step get_1; paths. all: try reflexivity.
  all: step get_2; paths. all: try reflexivity.
  all: step get_3; paths. all: reflexivity.
Qed.

Lemma get_all_never_notifies :
  pushes (trace (serve get_all request fl st)) = [].
Proof.
  unfold serve, initial, get_all.
  step get_all_1; paths. all: reflexivity.
Qed.

Lemma post_never_notifies : pushes (trace (serve post request fl st)) = [].
Proof.
  unfold serve, initial, post.
  step post_1; paths. all: try reflexivity.
  all: step post_2; paths. all: try reflexivity.
  all: destruct (insert_chat (body_name request) st) as [[rs|err] st'];
    cbn; try reflexivity.
  all: destruct (rows rs); reflexivity.
Qed.

Lemma delete_never_notifies :
  pushes (trace (serve delete request fl st)) = [].
Proof.
  unfold serve, initial, delete.
  step delete_1; paths. all: try reflexivity.
  all: step delete_2; paths. all: try reflexivity.
  all: step delete_3; paths. all: try reflexivity.
  all: step delete_4; paths. all: try reflexivity.
  all: step delete_5; paths. all: reflexivity.
Qed.

Lemma put_never_notifies : pushes (trace (serve put request fl st)) = [].
Proof.
  unfold serve, initial, put.
  step put_1; paths. all: try reflexivity.
  all: step put_2; paths. all: try reflexivity.
  all: step put_3; paths. all: try reflexivity.
  all: step put_4; paths. all: try reflexivity.
  all: step put_5; paths. all: reflexivity.
Qed.

Lemma delete_email_never_notifies :
  pushes (trace (serve delete_email request fl st)) = [].
Proof.
  unfold serve, initial, delete_email.
  step delete_email_1; paths. all: try reflexivity.
  all: step delete_email_2; paths. all: try reflexivity.
  all: step delete_email_3; paths. all: try reflexivity.
  all: step delete_email_4; paths. all: try reflexivity.
  all: step delete_email_5; paths. all: reflexivity.
Qed.

Lemma put_email_notifies_on_success :
  let w := serve put_email request fl st in
  pushes (trace w) <> [] ->
  response w = Some OK
  /\ exists c m, store w = with_member st c m
                 /\ last (queries (trace w)) (SelectChat Undefined)
                    = SelectPushTokens (Num m).
Proof.
  unfold serve, initial, put_email.
  step put_email_1; paths. all: try (intros H; now destruct H).
  all: step put_email_2; paths. all: try (intros H; now destruct H).
  all: step put_email_3; paths. all: try (intros H; now destruct H).
  all: step put_email_4; paths. all: try (intros H; now destruct H).
  all: step put_email_5; paths. all: try (intros H; now destruct H).
  all: step put_email_6; paths. all: try (intros H; now destruct H).
  all: rewrite forEach_emit; cbn; intros _.
  all: unfold response; cbn; rewrite !responses_app, responses_push; cbn.
  all: split; [reflexivity|]; eexists; eexists; split; [reflexivity|].
  all: rewrite !queries_app, queries_push; reflexivity.
Qed.

End Notifications.

(** X16: only adding a member by email notifies anybody, and only when it
    succeeds: a request that dispatched a notification was an add by
    email, the membership row is in the store, the tokens were the last
    thing asked of the store and the answer is the success one.  So no
    other route ever notifies, and a refused or failed add by email does
    not either. *)
Theorem only_add_by_email_notifies (e : Endpoint) (request : Request)
    (fl : list bool) (st : Store) :
  let w := serve (handlers e) request fl st in
  pushes (trace w) <> [] ->
  e = PUT_chat_email
  /\ response w = Some OK
  /\ exists c m, store w = with_member st c m
                 /\ last (queries (trace w)) (SelectChat Undefined)
                    = SelectPushTokens (Num m).
Proof.
  intros w Hsome. subst w.
  destruct e; cbn [handlers] in *.
  - now rewrite post_never_notifies in Hsome.
  - now rewrite get_all_never_notifies in Hsome.
  - now rewrite delete_never_notifies in Hsome.
  - now rewrite put_never_notifies in Hsome.
  - split; [reflexivity|]. now apply put_email_notifies_on_success.
  - now rewrite get_never_notifies in Hsome.
  - now rewrite delete_email_never_notifies in Hsome.
Qed.

Lemma only_add_by_email_notifies_witness :
  PUT_chat_email = PUT_chat_email
  /\ response
       (serve (handlers PUT_chat_email)
          (request_chat_email 7 (Str "2") (Str "bob@uw.edu")) []
          Sample.store) = Some OK
  /\ exists c m,
       store
         (serve (handlers PUT_chat_email)
            (request_chat_email 7 (Str "2") (Str "bob@uw.edu")) []
            Sample.store) = with_member Sample.store c m
       /\ last
            (queries
               (trace
                  (serve (handlers PUT_chat_email)
                     (request_chat_email 7 (Str "2") (Str "bob@uw.edu")) []
                     Sample.store))) (SelectChat Undefined)
          = SelectPushTokens (Num m).
Proof.
  apply (only_add_by_email_notifies PUT_chat_email
           (request_chat_email 7 (Str "2") (Str "bob@uw.edu")) []
           Sample.store).
  vm_compute. discriminate.
Defined.


Section Rejections.

Variables (st : Store) (request : Request).








End Rejections.



(** X18: no route writes to Members or Push_Token; Chats is written by
    create and self-leave only, ChatMembers by the four membership routes
    only, and the generator of chat ids moves on create only, and never
    back. *)
Theorem tables_frame (e : Endpoint) (request : Request) (fl : list bool)
    (st : Store) :
  let st' := store (serve (handlers e) request fl st) in
  Members st' = Members st
  /\ Push_Token st' = Push_Token st
  /\ (writes_Chats e = false -> Chats st' = Chats st)
  /\ (writes_ChatMembers e = false -> ChatMembers st' = ChatMembers st)
  /\ (e <> POST_chats -> chats_chatid_seq st' = chats_chatid_seq st)
  /\ (chats_chatid_seq st <= chats_chatid_seq st')%Z.
Proof.
  destruct e; cbn [handlers writes_Chats writes_ChatMembers].
  - destruct (serve_post_store st request fl) as [E|[E|(n & _ & E)]];
      cbn zeta in E; rewrite E; cbn; repeat split; try easy; lia.
  - rewrite serve_get_all_store. repeat split; try easy; lia.
  - destruct (serve_delete_store st request fl) as [E|(c & [E|[_ E]])];
      cbn zeta in E; rewrite E; cbn; repeat split; try easy; lia.
  - destruct (serve_put_store st request fl) as [E|(c & _ & _ & _ & E)];
      cbn zeta in E; rewrite E; cbn; repeat split; try easy; lia.
  - destruct (serve_put_email_store st request fl)
      as [E|(c & m & _ & _ & _ & E)];
      cbn zeta in E; rewrite E; cbn; repeat split; try easy; lia.
  - rewrite serve_get_store. repeat split; try easy; lia.
  - destruct (serve_delete_email_store st request fl) as [E|(c & m & E)];
      cbn zeta in E; rewrite E; cbn; repeat split; try easy; lia.
Qed.

(** X11: creating a chat is all or nothing.  Either the answer is 201 with
    the next id of the generator, which was not in use, and the one row
    (id, name) was appended to Chats; or the answer is a 400 and Chats is
    as it was.  Without a name that is a non-empty string the answer is
    "Missing required information" and no statement is sent. *)
Ltac refused :=
  right; eexists; split; [reflexivity|split; [reflexivity|discriminate]].

Theorem create_is_all_or_nothing (request : Request) (fl : list bool)
    (st : Store) :
  let c := (chats_chatid_seq st + 1)%Z in
  let w := serve post request fl st in
  (exists n,
     body_name request = Str n /\ n <> ""
     /\ ~ chat_exists c st
     /\ response w = Some {| status := 201; body := SuccessChatID (Num c) |}
     /\ Chats (store w) = Chats st ++ [(c, n)])
  \/ (exists b,
        response w = Some {| status := 400; body := b |}
        /\ Chats (store w) = Chats st
        /\ (isStringProvided (body_name request) = false ->
            b = Message "Missing required information"
            /\ queries (trace w) = [])).
Proof.
  intros c w. subst w. unfold serve, initial, post.
  step post_1. destruct (body_name request) as [|n|z] eqn:Hname; cbn.
  - right. eexists. repeat split; reflexivity.
  - destruct (String.eqb_spec n ""); cbn.
    + right. eexists. repeat split; reflexivity.
    + step post_2. rewrite Hname.
      destruct fl as [|[|] fl']; cbn.
      * unfold insert_chat. cbn. fold c.
        destruct (in_int4 c) eqn:Hrange; cbn;
          [|refused].
        destruct (existsb (is_chat (Some c)) (Chats st)) eqn:Hused; cbn;
          [refused|].
        left. exists n. repeat split; auto. now apply chat_present.
      * refused.
      * unfold insert_chat. cbn. fold c.
        destruct (in_int4 c) eqn:Hrange; cbn;
          [|refused].
        destruct (existsb (is_chat (Some c)) (Chats st)) eqn:Hused; cbn;
          [refused|].
        left. exists n. repeat split; auto. now apply chat_present.
  - right. eexists. repeat split; reflexivity.
Qed.

Lemma chat_name_new (st : Store) (c : Z) (n : string)
    (more : list (Z * string)) :
  ~ chat_exists c st ->
  option_map snd
    (hd_error (filter (is_chat (Some c)) (Chats st ++ (c, n) :: more)))
  = Some n.
Proof.
  intros Hc. rewrite filter_app, (chat_rows_none st c Hc). cbn.
  now rewrite Z.eqb_refl.
Qed.

(** X12: two chats created one after the other get different ids, the
    second the successor of the first, and each id names its own chat
    afterwards, also when both chats are given the same name. *)
Theorem successive_creates_get_distinct_ids (st : Store) (a b : Z)
    (n1 n2 : string) :
  generator_ahead st ->
  n1 <> "" -> n2 <> "" ->
  in_int4 (chats_chatid_seq st + 1) = true ->
  in_int4 (chats_chatid_seq st + 2) = true ->
  let w1 := serve post (request_post a (Str n1)) [] st in
  let w2 := serve post (request_post b (Str n2)) [] (store w1) in
  exists c1 c2,
    response w1 = Some {| status := 201; body := SuccessChatID (Num c1) |}
    /\ response w2 = Some {| status := 201; body := SuccessChatID (Num c2) |}
    /\ c2 = (c1 + 1)%Z
    /\ chat_name c1 (store w2) = Some n1
    /\ chat_name c2 (store w2) = Some n2
    /\ generator_ahead (store w2).
Proof.
  intros Hgen Hn1 Hn2 Hr1 Hr2 w1 w2.
  set (c := chats_chatid_seq st) in *.
  assert (Hfresh1 : ~ chat_exists (c + 1) st)
    by (intros H; apply Hgen in H; fold c in H; lia).
  assert (Hfresh2 : ~ chat_exists (c + 2) st)
    by (intros H; apply Hgen in H; fold c in H; lia).
  pose proof (serve_post st a n1 Hn1 Hr1 Hfresh1) as E1. fold c w1 in E1.
  set (st1 := set_seq (set_Chats st (Chats st ++ [((c + 1)%Z, n1)])) (c + 1))
    in *.
  assert (Hs1 : store w1 = st1) by now rewrite E1.
  assert (Hseq : (chats_chatid_seq st1 + 1 = c + 2)%Z) by (cbn; lia).
  assert (Hfresh : ~ chat_exists (chats_chatid_seq st1 + 1) st1).
  { rewrite Hseq. unfold chat_exists. cbn. rewrite map_app. cbn.
    intros H. apply in_app_or in H as [H|[H|[]]]; [now apply Hfresh2|lia]. }
  assert (Hr : in_int4 (chats_chatid_seq st1 + 1) = true)
    by now rewrite Hseq.
  pose proof (serve_post st1 b n2 Hn2 Hr Hfresh) as E2.
  rewrite <- Hs1 in E2 at 1. fold w2 in E2. rewrite Hseq in E2.
  exists (c + 1)%Z, (c + 2)%Z. rewrite E1, E2. cbn.
  repeat split; try reflexivity.
  - lia.
  - unfold chat_name. cbn. rewrite <- app_assoc. cbn.
    now apply chat_name_new.
  - unfold chat_name. cbn.
    assert (H : ~ chat_exists (c + 2) st1).
    { now rewrite <- Hseq. }
    exact (chat_name_new st1 (c + 2) n2 [] H).
  - intros c' H. unfold chat_exists in H. cbn in H |- *.
    rewrite !map_app in H. cbn in H.
    apply in_app_or in H as [H|[H|[]]].
    + apply in_app_or in H as [H|[H|[]]].
      * apply Hgen in H. fold c in H. lia.
      * lia.
    + lia.
Qed.

Lemma successive_creates_get_distinct_ids_witness :
  exists c1 c2,
    response (serve post (request_post 7 (Str "Team")) [] Sample.store)
    = Some {| status := 201; body := SuccessChatID (Num c1) |}
    /\ response
         (serve post (request_post 8 (Str "Team")) []
            (store (serve post (request_post 7 (Str "Team")) []
                      Sample.store)))
       = Some {| status := 201; body := SuccessChatID (Num c2) |}
    /\ c2 = (c1 + 1)%Z
    /\ chat_name c1
         (store (serve post (request_post 8 (Str "Team")) []
            (store (serve post (request_post 7 (Str "Team")) []
                      Sample.store)))) = Some "Team"
    /\ chat_name c2
         (store (serve post (request_post 8 (Str "Team")) []
            (store (serve post (request_post 7 (Str "Team")) []
                      Sample.store)))) = Some "Team"
    /\ generator_ahead
         (store (serve post (request_post 8 (Str "Team")) []
            (store (serve post (request_post 7 (Str "Team")) []
                      Sample.store)))).
Proof.
  apply (successive_creates_get_distinct_ids Sample.store 7 8 "Team" "Team").
  - exact (proj2 (proj2 (proj2 (proj2 (proj2 sample_data_model))))).
  - discriminate.
  - discriminate.
  - reflexivity.
  - reflexivity.
Defined.

Lemma data_model_kept_witness :
  data_model
    (store (serve (handlers DELETE_chat) (request_chat 7 (Str "2")) []
              Sample.store)).
Proof.
  apply (data_model_kept DELETE_chat (request_chat 7 (Str "2")) []
           Sample.store).
  exact sample_data_model.
Defined.

Lemma delete_spares_inhabited_chats_witness :
  In (1%Z, "general")
    (Chats (store (serve delete (request_chat 7 (Str "1")) [] Sample.store))).
Proof.
  apply (delete_spares_inhabited_chats Sample.store
           (request_chat 7 (Str "1")) [] 1 8 "general").
  - cbn. auto.
  - vm_compute. auto.
Defined.
